(** * Local components: Issuer, BadgeClass and BadgeInstance rows

    A shallow embedding of [apps/local_components/models.py].  The three
    [from_analyzed_instance] class methods and [BadgeInstance.image_url]
    are written as functions in a state-and-exception monad over the
    relational store; the analysed payload, the keyword options, the
    settings and the external helpers are explicit arguments. *)

From Stdlib Require Import Ascii.
From stdpp Require Import gmap strings list fin_maps pretty.

Set Warnings "-register-all".
Local Open Scope string_scope.

(** ** JSON documents

    Python dictionaries are finite maps from strings; Python's [None] is
    [JNull]. *)

Inductive jvalue :=
| JNull
| JBool (b : bool)
| JNum (n : Z)
| JStr (s : string)
| JList (l : list jvalue)
| JDict (d : gmap string jvalue).

(** One entry of an [errors] column: [(code, message, detail)]. *)
Definition error_record : Type := string * string * jvalue.

(** ** Exceptions *)

Inductive exn :=
| ValidationError (msg : string)
| AttributeError
| TypeError
| ValueError
| KeyError
| DoesNotExist
| MultipleObjectsReturned
| DatabaseError.

Inductive result (A : Type) :=
| Ok (a : A)
| Raise (e : exn).
Arguments Ok {A} a.
Arguments Raise {A} e.

(** ** The analysed payload and the options *)

(** [abi.issuer] and [abi.badge]: the analysed sub-documents. *)
Record Component := {
  version : option string;
  version_errors : jvalue }.

(** The file behind an image field; only its name is read here. *)
Record ImageFile := { name : string }.

(** The attributes of an [AnalyzedBadgeInstance] read by this module.
    [issuer_url], [badge_url], [issuer] and [badge] are [None] when the
    attribute access raises [AttributeError] (0.5 badges). *)
Record AnalyzedBadgeInstance := {
  is_valid : bool;
  all_errors : list error_record;
  data : jvalue;
  issuer_url : option string;
  badge_url : option string;
  instance_url : string;
  recipient_id : string;
  issuer : option Component;
  badge : option Component }.

(** [**kwargs].  For ['recipient_user'] the code tells an absent key
    ([None]) from a key bound to null ([Some None]); for ['image'] it
    only tests [kwargs.get('image') is not None]. *)
Record Kwargs := {
  kw_recipient_user : option (option positive);
  kw_image : option ImageFile }.

(** [kwargs.get('recipient_user')] *)
Definition kwargs_get_recipient_user (kwargs : Kwargs) : option positive :=
  match kw_recipient_user kwargs with
  | Some v => v
  | None => None
  end.

(** [kwargs.get('recipient_user', dflt)] *)
Definition kwargs_get_recipient_user_default
    (kwargs : Kwargs) (dflt : option positive) : option positive :=
  match kw_recipient_user kwargs with
  | Some v => v
  | None => dflt
  end.

(** ** Settings and external collaborators *)

Record Settings := {
  MEDIA_URL : string;
  HTTP_ORIGIN : string }.

(** [find_recipient_user] and [baked_image_from_abi] come from [.utils];
    [uuid4] renders the n-th identifier drawn from the generator;
    [storage_save] is the name under which the storage backend commits an
    image file that is saved under the given name. *)
Record Collaborators := {
  settings : Settings;
  find_recipient_user : string → option positive;
  baked_image_from_abi : AnalyzedBadgeInstance → ImageFile;
  uuid4 : nat → string;
  storage_save : string → string }.

(** ** Rows *)

Module IssuerRow.
Record t := {
  json : jvalue;
  errors : list error_record;
  url : string }.
End IssuerRow.

Module BadgeClassRow.
Record t := {
  json : jvalue;
  errors : list error_record;
  url : string;
  issuer : positive }.
End BadgeClassRow.

Module BadgeInstanceRow.
Record t := {
  json : jvalue;
  errors : list error_record;
  url : string;
  badgeclass : option positive;
  issuer : option positive;
  recipient_id : string;
  recipient_user : option positive;
  image : ImageFile }.

Definition with_json (v : jvalue) (self : t) : t :=
  {| json := v; errors := errors self; url := url self;
     badgeclass := badgeclass self; issuer := issuer self;
     recipient_id := recipient_id self;
     recipient_user := recipient_user self; image := image self |}.

Definition with_badgeclass (v : option positive) (self : t) : t :=
  {| json := json self; errors := errors self; url := url self;
     badgeclass := v; issuer := issuer self;
     recipient_id := recipient_id self;
     recipient_user := recipient_user self; image := image self |}.

Definition with_issuer (v : option positive) (self : t) : t :=
  {| json := json self; errors := errors self; url := url self;
     badgeclass := badgeclass self; issuer := v;
     recipient_id := recipient_id self;
     recipient_user := recipient_user self; image := image self |}.

Definition with_recipient_user (v : option positive) (self : t) : t :=
  {| json := json self; errors := errors self; url := url self;
     badgeclass := badgeclass self; issuer := issuer self;
     recipient_id := recipient_id self;
     recipient_user := v; image := image self |}.

Definition with_image (v : ImageFile) (self : t) : t :=
  {| json := json self; errors := errors self; url := url self;
     badgeclass := badgeclass self; issuer := issuer self;
     recipient_id := recipient_id self;
     recipient_user := recipient_user self; image := v |}.

(** [save(update_fields=fields)]: the columns named in [fields] are
    taken from the object, every other column keeps the stored value. *)
Definition write_fields (fields : list string) (obj row : t) : t :=
  let pick {A} (f : string) (proj : t → A) : A :=
    if bool_decide (f ∈ fields) then proj obj else proj row in
  {| json := pick "json" json;
     errors := pick "errors" errors;
     url := pick "url" url;
     badgeclass := pick "badgeclass" badgeclass;
     issuer := pick "issuer" issuer;
     recipient_id := pick "recipient_id" recipient_id;
     recipient_user := pick "recipient_user" recipient_user;
     image := pick "image" image |}.
End BadgeInstanceRow.

(** ** The store and the trace of effects *)

(** A row of one of the three tables. *)
Inductive saved_row :=
| AnIssuer (row : IssuerRow.t)
| ABadgeClass (row : BadgeClassRow.t)
| ABadgeInstance (row : BadgeInstanceRow.t).

(** What a call does besides computing its result: the writes sent to the
    database, each with the row as it is stored afterwards, and the calls
    to the external helpers. *)
Inductive event :=
| EvInsert (pk : positive) (row : saved_row)
| EvUpdate (pk : positive) (update_fields : option (list string))
           (row : saved_row)
| EvFindRecipientUser (recipient_id : string)
| EvBakedImage
| EvUuid4.

Record World := {
  issuers : gmap positive IssuerRow.t;
  badgeclasses : gmap positive BadgeClassRow.t;
  badgeinstances : gmap positive BadgeInstanceRow.t;
  drawn : nat;
  trace : list event }.

Definition empty_world : World :=
  {| issuers := ∅; badgeclasses := ∅; badgeinstances := ∅;
     drawn := 0; trace := [] |}.

(** ** The monad *)

Definition M (A : Type) : Type := World → result A * World.

#[global] Instance M_ret : MRet M := λ A a w, (Ok a, w).
#[global] Instance M_bind : MBind M := λ A B f m w,
  match m w with
  | (Ok a, w') => f a w'
  | (Raise e, w') => (Raise e, w')
  end.

Definition raise {A} (e : exn) : M A := λ w, (Raise e, w).
Definition get_world : M World := λ w, (Ok w, w).
Definition emit (e : event) : M unit := λ w,
  (Ok tt, {| issuers := issuers w; badgeclasses := badgeclasses w;
             badgeinstances := badgeinstances w; drawn := drawn w;
             trace := trace w ++ [e] |}).

Definition set_issuers (t : gmap positive IssuerRow.t) : M unit := λ w,
  (Ok tt, {| issuers := t; badgeclasses := badgeclasses w;
             badgeinstances := badgeinstances w; drawn := drawn w;
             trace := trace w |}).
Definition set_badgeclasses (t : gmap positive BadgeClassRow.t) : M unit := λ w,
  (Ok tt, {| issuers := issuers w; badgeclasses := t;
             badgeinstances := badgeinstances w; drawn := drawn w;
             trace := trace w |}).
Definition set_badgeinstances (t : gmap positive BadgeInstanceRow.t) : M unit := λ w,
  (Ok tt, {| issuers := issuers w; badgeclasses := badgeclasses w;
             badgeinstances := t; drawn := drawn w;
             trace := trace w |}).

(** [str(uuid.uuid4())] *)
Definition draw_uuid4 (env : Collaborators) : M string := λ w,
  (Ok (uuid4 env (drawn w)),
   {| issuers := issuers w; badgeclasses := badgeclasses w;
      badgeinstances := badgeinstances w; drawn := S (drawn w);
      trace := trace w ++ [EvUuid4] |}).

(** ** The object manager *)

(** The three outcomes of [cls.objects.get(url=u)]. *)
Inductive lookup_result (R : Type) :=
| Found (pk : positive) (row : R)
| NotFound
| Multiple.
Arguments Found {R} pk row.
Arguments NotFound {R}.
Arguments Multiple {R}.

Definition objects_get {R} (url_of : R → string)
    (tbl : gmap positive R) (u : string) : lookup_result R :=
  match map_to_list (filter (λ kr, url_of kr.2 = u) tbl) with
  | [] => NotFound
  | [(k, r)] => Found k r
  | _ => Multiple
  end.

(** The primary key the database gives to the next inserted row. *)
Definition next_pk {R} (tbl : gmap positive R) : positive := fresh (dom tbl).

(** ** Python dictionary access on JSON values *)

(** [v.get(k, dflt)]: only a dict has [get]. *)
Definition py_get_default (v : jvalue) (k : string) (dflt : jvalue) : M jvalue :=
  match v with
  | JDict d => mret (default dflt (d !! k))
  | _ => raise AttributeError
  end.

(** [v.get(k)] *)
Definition py_get (v : jvalue) (k : string) : M jvalue :=
  py_get_default v k JNull.

(** [v.copy()]: a shallow copy of a dict; the other JSON values have no
    [copy] method (Python 2.7). *)
Definition py_copy (v : jvalue) : M (gmap string jvalue) :=
  match v with
  | JDict d => mret d
  | _ => raise AttributeError
  end.

(** [v[k] = x]: item assignment with a string key needs a dict. *)
Definition py_setitem (v : jvalue) (k : string) (x : jvalue) : M jvalue :=
  match v with
  | JDict d => mret (JDict (<[k := x]> d))
  | _ => raise TypeError
  end.

(** [x != v[k]] for a string [x], on a dict [v] that has the key (a
    string differs from every value that is not that string). *)
Definition str_ne_item (x : string) (v : jvalue) (k : string) : M bool :=
  match v with
  | JDict d =>
      match d !! k with
      | Some (JStr s) => mret (negb (String.eqb x s))
      | Some _ => mret true
      | None => raise KeyError
      end
  | _ => raise TypeError
  end.

(** ** [os.path.splitext] (posixpath) *)

Fixpoint rfind_from (c : Ascii.ascii) (s : string) (i last : Z) : Z :=
  match s with
  | EmptyString => last
  | String a s' =>
      rfind_from c s' (i + 1)%Z (if Ascii.eqb a c then i else last)
  end.

(** [s.rfind(c)]: the index of the last occurrence, or -1. *)
Definition rfind (c : Ascii.ascii) (s : string) : Z := rfind_from c s 0 (-1).

Fixpoint all_dots (s : string) : bool :=
  match s with
  | EmptyString => true
  | String a s' => Ascii.eqb a "."%char && all_dots s'
  end.

Definition splitext (p : string) : string * string :=
  let sepIndex := rfind "/"%char p in
  let dotIndex := rfind "."%char p in
  if (sepIndex <? dotIndex)%Z then
    let filenameIndex := Z.to_nat (sepIndex + 1) in
    if all_dots (String.substring filenameIndex (Z.to_nat dotIndex - filenameIndex) p)
    then (p, "")
    else (String.substring 0 (Z.to_nat dotIndex) p,
          String.substring (Z.to_nat dotIndex)
                    (String.length p - Z.to_nat dotIndex) p)
  else (p, "").

(** [abi.issuer], [abi.badge]: an absent attribute raises. *)
Definition getattr {A} (attr : option A) : M A :=
  match attr with
  | Some a => mret a
  | None => raise AttributeError
  end.

(** ** Issuer *)

Module Issuer.

(** [new_issuer.save()] on an object that has no primary key yet. *)
Definition save_new (self : IssuerRow.t) : M positive :=
  w ← get_world;
  let pk := next_pk (issuers w) in
  set_issuers (<[pk := self]> (issuers w));;
  emit (EvInsert pk (AnIssuer self));;
  mret pk.

Definition from_analyzed_instance
    (abi : AnalyzedBadgeInstance) (kwargs : Kwargs)
    : M (option (positive * IssuerRow.t)) :=
  if negb (is_valid abi) then
    raise (ValidationError
             "Cannot save badgeclass from an invalid badge instance.")
  else
    match issuer_url abi with
    | None => mret None
    | Some u =>
        w ← get_world;
        match objects_get IssuerRow.url (issuers w) u with
        | Found pk existing_issuer => mret (Some (pk, existing_issuer))
        | Multiple => raise MultipleObjectsReturned
        | NotFound =>
            abi_issuer ← getattr (issuer abi);
            let issuer_errors :=
              match version abi_issuer with
              | None =>
                  [("error.version_detection",
                    "Could not determine Open Badges version of Issuer",
                    version_errors abi_issuer)]
              | Some _ => []
              end in
            badge_json ← py_get_default (data abi) "badge" (JDict ∅);
            issuer_field ← py_get badge_json "issuer";
            issuer_json ← py_copy issuer_field;
            let issuer_json :=
              <["@context" := JStr "https://w3id.org/openbadges/v1"]>
                issuer_json in
            let new_issuer :=
              {| IssuerRow.json := JDict issuer_json;
                 IssuerRow.errors := issuer_errors;
                 IssuerRow.url := u |} in
            pk ← save_new new_issuer;
            mret (Some (pk, new_issuer))
        end
    end.

End Issuer.

(** ** BadgeClass *)

Module BadgeClass.

Definition save_new (self : BadgeClassRow.t) : M positive :=
  w ← get_world;
  let pk := next_pk (badgeclasses w) in
  set_badgeclasses (<[pk := self]> (badgeclasses w));;
  emit (EvInsert pk (ABadgeClass self));;
  mret pk.

Definition from_analyzed_instance
    (abi : AnalyzedBadgeInstance) (kwargs : Kwargs)
    : M (option (positive * BadgeClassRow.t)) :=
  if negb (is_valid abi) then
    raise (ValidationError
             "Cannot save badgeclass from an invalid badge instance.")
  else
    match badge_url abi with
    | None => mret None
    | Some u =>
        w ← get_world;
        match objects_get BadgeClassRow.url (badgeclasses w) u with
        | Found pk existing_badgeclass =>
            mret (Some (pk, existing_badgeclass))
        | Multiple => raise MultipleObjectsReturned
        | NotFound =>
            abi_badge ← getattr (badge abi);
            let badgeclass_errors :=
              match version abi_badge with
              | None =>
                  [("error.version_detection",
                    "Could not determine Open Badges version of BadgeClass",
                    version_errors abi_badge)]
              | Some _ => []
              end in
            badge_field ← py_get (data abi) "badge";
            badgeclass_json ← py_copy badge_field;
            let badgeclass_json :=
              <["@context" := JStr "https://w3id.org/openbadges/v1"]>
                badgeclass_json in
            new_issuer ← Issuer.from_analyzed_instance abi kwargs;
            (* the foreign key is declared null=False: None is refused *)
            match new_issuer with
            | None => raise ValueError
            | Some (issuer_pk, _) =>
                let new_badgeclass :=
                  {| BadgeClassRow.json := JDict badgeclass_json;
                     BadgeClassRow.errors := badgeclass_errors;
                     BadgeClassRow.url := u;
                     BadgeClassRow.issuer := issuer_pk |} in
                pk ← save_new new_badgeclass;
                mret (Some (pk, new_badgeclass))
            end
        end
    end.

End BadgeClass.

(** ** BadgeInstance *)

Module BadgeInstance.

Definition image_url (cfg : Settings) (self : BadgeInstanceRow.t) : string :=
  if String.prefix "http" (MEDIA_URL cfg) then
    MEDIA_URL cfg +:+ name (BadgeInstanceRow.image self)
  else
    (HTTP_ORIGIN cfg +:+ MEDIA_URL cfg) +:+ name (BadgeInstanceRow.image self).

(** [self.save()] on an object that has no primary key yet.  The image
    field commits its file first, and the object carries the name the
    storage backend gave it from then on. *)
Definition save_new (env : Collaborators) (self : BadgeInstanceRow.t)
    : M (positive * BadgeInstanceRow.t) :=
  let committed :=
    {| name := storage_save env (name (BadgeInstanceRow.image self)) |} in
  let self := BadgeInstanceRow.with_image committed self in
  w ← get_world;
  let pk := next_pk (badgeinstances w) in
  set_badgeinstances (<[pk := self]> (badgeinstances w));;
  emit (EvInsert pk (ABadgeInstance self));;
  mret (pk, self).

(** [self.save()] on an object fetched from the table: every column is
    written. *)
Definition save (pk : positive) (self : BadgeInstanceRow.t) : M unit :=
  w ← get_world;
  set_badgeinstances (<[pk := self]> (badgeinstances w));;
  emit (EvUpdate pk None (ABadgeInstance self)).

(** [self.save(update_fields=fields)] *)
Definition save_update_fields (pk : positive) (fields : list string)
    (self : BadgeInstanceRow.t) : M unit :=
  w ← get_world;
  match badgeinstances w !! pk with
  | None => raise DatabaseError
  | Some row =>
      let row := BadgeInstanceRow.write_fields fields self row in
      set_badgeinstances (<[pk := row]> (badgeinstances w));;
      emit (EvUpdate pk (Some fields) (ABadgeInstance row))
  end.

(** [new_instance.badgeclass.issuer]: the related Issuer is fetched by
    the key stored on the BadgeClass. *)
Definition badgeclass_issuer (bc : BadgeClassRow.t) : M positive :=
  w ← get_world;
  match issuers w !! BadgeClassRow.issuer bc with
  | Some _ => mret (BadgeClassRow.issuer bc)
  | None => raise DoesNotExist
  end.

(** [abi.data] with the value of [new_instance.json]: both names denote
    one dictionary, so an item assignment through the row shows in the
    payload. *)
Definition with_data (v : jvalue) (abi : AnalyzedBadgeInstance)
    : AnalyzedBadgeInstance :=
  {| is_valid := is_valid abi; all_errors := all_errors abi; data := v;
     issuer_url := issuer_url abi; badge_url := badge_url abi;
     instance_url := instance_url abi; recipient_id := recipient_id abi;
     issuer := issuer abi; badge := badge abi |}.

(** The result carries the object and the payload as the call leaves
    it. *)
Definition from_analyzed_instance (env : Collaborators)
    (abi : AnalyzedBadgeInstance) (kwargs : Kwargs)
    : M (positive * BadgeInstanceRow.t * AnalyzedBadgeInstance) :=
  if negb (is_valid abi) then
    raise (ValidationError "Cannot save an invalid badge instance.")
  else
    w ← get_world;
    match objects_get BadgeInstanceRow.url (badgeinstances w)
                      (instance_url abi) with
    | Multiple => raise MultipleObjectsReturned
    | Found pk existing_instance =>
        match BadgeInstanceRow.recipient_user existing_instance,
              kwargs_get_recipient_user kwargs with
        | None, Some u =>
            let existing_instance :=
              BadgeInstanceRow.with_recipient_user
                (kwargs_get_recipient_user kwargs) existing_instance in
            save pk existing_instance;;
            mret (pk, existing_instance, abi)
        | _, _ => mret (pk, existing_instance, abi)
        end
    | NotFound =>
        (* the default of kwargs.get is evaluated before the call *)
        emit (EvFindRecipientUser (recipient_id abi));;
        let recipient_user :=
          kwargs_get_recipient_user_default kwargs
            (find_recipient_user env (recipient_id abi)) in
        let new_instance :=
          {| BadgeInstanceRow.json := data abi;
             BadgeInstanceRow.errors := all_errors abi;
             BadgeInstanceRow.url := "";
             BadgeInstanceRow.badgeclass := None;
             BadgeInstanceRow.issuer := None;
             BadgeInstanceRow.recipient_id := recipient_id abi;
             BadgeInstanceRow.recipient_user := recipient_user;
             BadgeInstanceRow.image := {| name := "" |} |} in
        badgeclass ← BadgeClass.from_analyzed_instance abi kwargs;
        let new_instance :=
          BadgeInstanceRow.with_badgeclass (fst <$> badgeclass)
                                           new_instance in
        image ← match kw_image kwargs with
                | Some image => mret image
                | None =>
                    emit EvBakedImage;;
                    mret (baked_image_from_abi env abi)
                end;
        let '(img_name, img_ext) := splitext (name image) in
        uuid ← draw_uuid4 env;
        let new_instance :=
          BadgeInstanceRow.with_image
            {| name := ("earned_badge_" +:+ uuid) +:+ img_ext |}
            new_instance in
        json ← py_setitem (BadgeInstanceRow.json new_instance) "image"
                 (JStr (image_url (settings env) new_instance));
        let new_instance := BadgeInstanceRow.with_json json new_instance in
        let abi := with_data json abi in
        new_instance ←
          match badgeclass with
          | Some (_, bc) =>
              issuer_pk ← badgeclass_issuer bc;
              mret (BadgeInstanceRow.with_issuer (Some issuer_pk)
                                                 new_instance)
          | None => mret new_instance
          end;
        '(pk, new_instance) ← save_new env new_instance;
        let eurl := image_url (settings env) new_instance in
        differs ← str_ne_item eurl (BadgeInstanceRow.json new_instance)
                    "image";
        if (differs : bool) then
          json ← py_setitem (BadgeInstanceRow.json new_instance) "image"
                   (JStr eurl);
          let new_instance := BadgeInstanceRow.with_json json new_instance in
          let abi := with_data json abi in
          save_update_fields pk ["json"] new_instance;;
          mret (pk, new_instance, abi)
        else
          mret (pk, new_instance, abi)
    end.

End BadgeInstance.


(** ** Operations as steps of the store *)

Inductive step : World → World → Prop :=
| step_issuer abi kwargs w res w' :
    Issuer.from_analyzed_instance abi kwargs w = (res, w') → step w w'
| step_badgeclass abi kwargs w res w' :
    BadgeClass.from_analyzed_instance abi kwargs w = (res, w') → step w w'
| step_badgeinstance env abi kwargs w res w' :
    BadgeInstance.from_analyzed_instance env abi kwargs w = (res, w') →
    step w w'.

(** The world after [Issuer.save_new] stored [row] under [pk]. *)
Definition issuer_inserted (pk : positive) (row : IssuerRow.t) (w : World)
    : World :=
  {| issuers := <[pk := row]> (issuers w);
     badgeclasses := badgeclasses w;
     badgeinstances := badgeinstances w;
     drawn := drawn w;
     trace := trace w ++ [EvInsert pk (AnIssuer row)] |}.

Definition badgeclass_inserted (pk : positive) (row : BadgeClassRow.t)
    (w : World) : World :=
  {| issuers := issuers w;
     badgeclasses := <[pk := row]> (badgeclasses w);
     badgeinstances := badgeinstances w;
     drawn := drawn w;
     trace := trace w ++ [EvInsert pk (ABadgeClass row)] |}.

(** ** Sample inputs *)

Definition sample_env : Collaborators :=
  {| settings := {| MEDIA_URL := "/media/";
                    HTTP_ORIGIN := "http://localhost:8000" |};
     find_recipient_user := λ _, Some 3%positive;
     baked_image_from_abi := λ _, {| name := "baked.png" |};
     uuid4 := λ n, pretty n;
     storage_save := λ s, "uploads/badges/" +:+ s |}.

Definition sample_issuer_json : gmap string jvalue :=
  <["name" := JStr "Issuer One"]> ∅.

Definition sample_badge_json : gmap string jvalue :=
  <["name" := JStr "Badge One"]>
    (<["issuer" := JDict sample_issuer_json]> ∅).

Definition sample_data : gmap string jvalue :=
  <["uid" := JStr "abc"]> (<["badge" := JDict sample_badge_json]> ∅).

(** A valid 1.0 payload; the version of its badge was not detected. *)
Definition sample_abi : AnalyzedBadgeInstance :=
  {| is_valid := true;
     all_errors := [];
     data := JDict sample_data;
     issuer_url := Some "http://issuer.example/1";
     badge_url := Some "http://issuer.example/badge/1";
     instance_url := "http://issuer.example/assertion/1";
     recipient_id := "recipient@example.org";
     issuer := Some {| version := Some "1.0"; version_errors := JNull |};
     badge := Some {| version := None;
                      version_errors := JList [JStr "no version"] |} |}.

Definition invalid_abi : AnalyzedBadgeInstance :=
  {| is_valid := false;
     all_errors := [("error.invalid", "broken", JNull)];
     data := JNull;
     issuer_url := None; badge_url := None;
     instance_url := "http://issuer.example/assertion/2";
     recipient_id := "recipient@example.org";
     issuer := None; badge := None |}.

(** A valid 0.5 payload: no issuer and no badge class. *)
Definition legacy_abi : AnalyzedBadgeInstance :=
  {| is_valid := true;
     all_errors := [];
     data := JDict (<["recipient" := JStr "recipient@example.org"]> ∅);
     issuer_url := None; badge_url := None;
     instance_url := "http://issuer.example/assertion/3";
     recipient_id := "recipient@example.org";
     issuer := None; badge := None |}.

Definition no_kwargs : Kwargs :=
  {| kw_recipient_user := None; kw_image := None |}.

Definition user_kwargs : Kwargs :=
  {| kw_recipient_user := Some (Some 7%positive); kw_image := None |}.

Definition cdn_settings : Settings :=
  {| MEDIA_URL := "https://cdn.example/media/";
     HTTP_ORIGIN := "http://localhost:8000" |}.

Definition sample_row : BadgeInstanceRow.t :=
  {| BadgeInstanceRow.json := JDict sample_data;
     BadgeInstanceRow.errors := [];
     BadgeInstanceRow.url := "http://issuer.example/assertion/1";
     BadgeInstanceRow.badgeclass := None;
     BadgeInstanceRow.issuer := None;
     BadgeInstanceRow.recipient_id := "recipient@example.org";
     BadgeInstanceRow.recipient_user := None;
     BadgeInstanceRow.image := {| name := "uploads/badges/x.png" |} |}.

(** [s.startswith(p)] as a proposition. *)
Definition startswith (s p : string) : Prop := ∃ rest, s = p +:+ rest.

(** The world after a full [save()] of the fetched BadgeInstance [row]. *)
Definition badgeinstance_updated (pk : positive) (row : BadgeInstanceRow.t)
    (w : World) : World :=
  {| issuers := issuers w;
     badgeclasses := badgeclasses w;
     badgeinstances := <[pk := row]> (badgeinstances w);
     drawn := drawn w;
     trace := trace w ++ [EvUpdate pk None (ABadgeInstance row)] |}.

Definition sample_issuer_row : IssuerRow.t :=
  {| IssuerRow.json :=
       JDict (<["@context" := JStr "https://w3id.org/openbadges/v1"]>
                sample_issuer_json);
     IssuerRow.errors := [];
     IssuerRow.url := "http://issuer.example/1" |}.

(** A store holding one BadgeInstance, under the URL of [sample_abi] and
    without a recipient user. *)
Definition sample_world : World :=
  {| issuers := ∅; badgeclasses := ∅;
     badgeinstances := {[ 5%positive := sample_row ]};
     drawn := 0; trace := [] |}.

(** The world after [find_recipient_user(rid)] was called. *)
Definition recipient_looked_up (rid : string) (w : World) : World :=
  {| issuers := issuers w;
     badgeclasses := badgeclasses w;
     badgeinstances := badgeinstances w;
     drawn := drawn w;
     trace := trace w ++ [EvFindRecipientUser rid] |}.

(** The events that write a BadgeInstance row, and those that consult
    [find_recipient_user]. *)
Definition is_instance_write (e : event) : bool :=
  match e with
  | EvInsert _ (ABadgeInstance _) | EvUpdate _ _ (ABadgeInstance _) => true
  | _ => false
  end.

Definition is_recipient_lookup (e : event) : bool :=
  match e with
  | EvFindRecipientUser _ => true
  | _ => false
  end.

(** The outcome of creating a BadgeInstance from [sample_abi] for user 7
    in the empty store: the returned key, object and payload, and the
    store afterwards. *)
Definition sample_creation
    : result (positive * BadgeInstanceRow.t * AnalyzedBadgeInstance) * World :=
  Eval vm_compute in
    BadgeInstance.from_analyzed_instance sample_env sample_abi user_kwargs
      empty_world.

Definition sample_created
    : positive * BadgeInstanceRow.t * AnalyzedBadgeInstance :=
  match sample_creation.1 with
  | Ok created => created
  | Raise _ => (1%positive, sample_row, sample_abi)
  end.

(** The key returned by a BadgeInstance call, if it returned. *)
Definition returned_pk
    (res : result (positive * BadgeInstanceRow.t * AnalyzedBadgeInstance))
    : option positive :=
  match res with
  | Ok (pk, _, _) => Some pk
  | Raise _ => None
  end.

(** The payload as a BadgeInstance call left it. *)
Definition returned_abi (dflt : AnalyzedBadgeInstance)
    (res : result (positive * BadgeInstanceRow.t * AnalyzedBadgeInstance))
    : AnalyzedBadgeInstance :=
  match res with
  | Ok (_, _, abi) => abi
  | Raise _ => dflt
  end.

(** ** Invariants of the store *)

(** Every stored BadgeInstance has a blank [url]. *)
Definition all_instance_urls_blank (w : World) : Prop :=
  ∀ k r, badgeinstances w !! k = Some r → BadgeInstanceRow.url r = "".

(** The BadgeInstance rows of [w] are still there in [w'], with the same
    [url]. *)
Definition instance_urls_kept (w w' : World) : Prop :=
  ∀ k r, badgeinstances w !! k = Some r →
    ∃ r', badgeinstances w' !! k = Some r' ∧
          BadgeInstanceRow.url r' = BadgeInstanceRow.url r.

(** The BadgeInstance rows of [w'] that [w] does not have carry a blank
    [url]. *)
Definition new_instance_urls_blank (w w' : World) : Prop :=
  ∀ k r', badgeinstances w' !! k = Some r' → badgeinstances w !! k = None →
    BadgeInstanceRow.url r' = "".

(** The issuer of a BadgeInstance is the issuer of its badge class. *)
Definition issuer_follows_badgeclass (w : World) (r : BadgeInstanceRow.t)
    : Prop :=
  ∀ b, BadgeInstanceRow.badgeclass r = Some b →
    ∃ bc, badgeclasses w !! b = Some bc ∧
          BadgeInstanceRow.issuer r = Some (BadgeClassRow.issuer bc).

Definition issuers_follow_badgeclasses (w : World) : Prop :=
  ∀ k r, badgeinstances w !! k = Some r → issuer_follows_badgeclass w r.

(** ** Recipient resolution as the specification words it

    On creation, the attached recipient is the supplied [recipient_user]
    when one was supplied and the result of [find_recipient_user]
    otherwise, and [find_recipient_user] is consulted only when none was
    supplied. *)
Definition recipient_resolution_as_stated (env : Collaborators)
    (abi : AnalyzedBadgeInstance) (kwargs : Kwargs) (w : World) : Prop :=
  ∀ pk obj abi' w' events,
    BadgeInstance.from_analyzed_instance env abi kwargs w =
      (Ok (pk, obj, abi'), w') →
    badgeinstances w !! pk = None →
    trace w' = (trace w ++ events)%list →
    match kwargs_get_recipient_user kwargs with
    | Some u =>
        BadgeInstanceRow.recipient_user obj = Some u ∧
        ∀ rid, EvFindRecipientUser rid ∉ events
    | None =>
        BadgeInstanceRow.recipient_user obj =
          find_recipient_user env (recipient_id abi)
    end.

(** ** Further invariants of the store *)

(** No two rows of a table share a [url]. *)
Definition url_unique {R} (url_of : R → string) (tbl : gmap positive R)
    : Prop :=
  ∀ k1 k2 r1 r2,
    tbl !! k1 = Some r1 → tbl !! k2 = Some r2 → url_of r1 = url_of r2 →
    k1 = k2.

(** Every foreign key of the store refers to a stored row. *)
Definition referential_integrity (w : World) : Prop :=
  (∀ k bc, badgeclasses w !! k = Some bc →
     is_Some (issuers w !! BadgeClassRow.issuer bc)) ∧
  (∀ k r, badgeinstances w !! k = Some r →
     (∀ b, BadgeInstanceRow.badgeclass r = Some b →
        is_Some (badgeclasses w !! b)) ∧
     (∀ i, BadgeInstanceRow.issuer r = Some i → is_Some (issuers w !! i))).

(** How one table of rows with a [url] may change in a step: not at all,
    or by one row under a fresh key whose [url] no stored row had. *)
Definition grows_by_url {R} (url_of : R → string)
    (tbl tbl' : gmap positive R) : Prop :=
  tbl' = tbl ∨
  ∃ pk row, tbl !! pk = None ∧ objects_get url_of tbl (url_of row) = NotFound ∧
            tbl' = <[pk := row]> tbl.

(** How a stored BadgeInstance may change: not at all, or by getting a
    recipient user where it had none. *)
Definition recipient_attached (r r' : BadgeInstanceRow.t) : Prop :=
  r' = r ∨
  (BadgeInstanceRow.recipient_user r = None ∧
   ∃ U, r' = BadgeInstanceRow.with_recipient_user (Some U) r).

(** The events that insert a row. *)
Definition is_insert (e : event) : bool :=
  match e with
  | EvInsert _ _ => true
  | _ => false
  end.

(** The image a new BadgeInstance starts from: [kwargs.get('image')] when
    it is not None, else the baked image. *)
Definition chosen_image (env : Collaborators) (abi : AnalyzedBadgeInstance)
    (kwargs : Kwargs) : ImageFile :=
  match kw_image kwargs with
  | Some image => image
  | None => baked_image_from_abi env abi
  end.

(** A store with two Issuer rows under one URL. *)
Definition duplicate_world : World :=
  {| issuers := <[2%positive := sample_issuer_row]>
                  {[ 1%positive := sample_issuer_row ]};
     badgeclasses := ∅; badgeinstances := ∅; drawn := 0; trace := [] |}.

(** A valid payload with a badge class and no issuer. *)
Definition issuerless_abi : AnalyzedBadgeInstance :=
  {| is_valid := true;
     all_errors := [];
     data := JDict sample_data;
     issuer_url := None;
     badge_url := Some "http://issuer.example/badge/2";
     instance_url := "http://issuer.example/assertion/4";
     recipient_id := "recipient@example.org";
     issuer := None;
     badge := Some {| version := Some "1.0"; version_errors := JNull |} |}.

(** How the BadgeInstance table may change in a step: stored rows stay,
    changed at most by an attached recipient; a row that is added has a
    blank [url], the issuer of its badge class, and no issuer without a
    badge class. *)
Definition instances_step (w w' : World) : Prop :=
  (∀ k r, badgeinstances w !! k = Some r →
     ∃ r', badgeinstances w' !! k = Some r' ∧ recipient_attached r r') ∧
  (∀ k r', badgeinstances w' !! k = Some r' → badgeinstances w !! k = None →
     BadgeInstanceRow.url r' = "" ∧ issuer_follows_badgeclass w' r' ∧
     (is_Some (BadgeInstanceRow.issuer r') →
      is_Some (BadgeInstanceRow.badgeclass r'))).

(** How the three tables may change in a step. *)
Definition table_step (w w' : World) : Prop :=
  grows_by_url IssuerRow.url (issuers w) (issuers w') ∧
  grows_by_url BadgeClassRow.url (badgeclasses w) (badgeclasses w') ∧
  (∀ k bc, badgeclasses w' !! k = Some bc → badgeclasses w !! k = None →
     is_Some (issuers w' !! BadgeClassRow.issuer bc)) ∧
  instances_step w w'.

(** The stores the module can build from the empty one. *)
Definition reachable (w : World) : Prop := rtc step empty_world w.

(** A valid payload with the Issuer URL of [sample_abi] and another
    issuer document. *)
Definition renamed_abi : AnalyzedBadgeInstance :=
  {| is_valid := true;
     all_errors := [];
     data := JDict (<["badge" :=
                       JDict (<["issuer" :=
                                 JDict (<["name" := JStr "Issuer Two"]> ∅)]>
                                ∅)]> ∅);
     issuer_url := Some "http://issuer.example/1";
     badge_url := Some "http://issuer.example/badge/1";
     instance_url := "http://issuer.example/assertion/1";
     recipient_id := "other@example.org";
     issuer := Some {| version := None; version_errors := JNull |};
     badge := Some {| version := Some "1.0"; version_errors := JNull |} |}.

(** The outcome of a second creation from [sample_abi], in the store the
    first one left. *)
Definition sample_second_creation
    : result (positive * BadgeInstanceRow.t * AnalyzedBadgeInstance) * World :=
  Eval vm_compute in
    BadgeInstance.from_analyzed_instance sample_env sample_abi no_kwargs
      sample_creation.2.

Definition sample_second_created
    : positive * BadgeInstanceRow.t * AnalyzedBadgeInstance :=
  match sample_second_creation.1 with
  | Ok created => created
  | Raise _ => (1%positive, sample_row, sample_abi)
  end.

(** The outcome of [BadgeClass.from_analyzed_instance] on [sample_abi] in
    the empty store. *)
Definition sample_badgeclass_creation
    : result (option (positive * BadgeClassRow.t)) * World :=
  Eval vm_compute in
    BadgeClass.from_analyzed_instance sample_abi no_kwargs empty_world.

Definition sample_badgeclass_row : BadgeClassRow.t :=
  match sample_badgeclass_creation.1 with
  | Ok (Some (_, row)) => row
  | _ => {| BadgeClassRow.json := JNull; BadgeClassRow.errors := [];
            BadgeClassRow.url := ""; BadgeClassRow.issuer := 1%positive |}
  end.

(** * Properties *)

Example splitext_png : splitext "a/b.c/badge.png" = ("a/b.c/badge", ".png").
Proof. reflexivity. Qed.

Example splitext_hidden : splitext "dir/.bashrc" = ("dir/.bashrc", "").
Proof. reflexivity. Qed.

(** ** The object manager *)

Section objects.
Context {R : Type} (url_of : R → string).
Implicit Types (tbl : gmap positive R) (u : string).

Lemma next_pk_fresh tbl : tbl !! next_pk tbl = None.
Proof. apply not_elem_of_dom, is_fresh. Qed.

Lemma objects_get_NotFound tbl u :
  objects_get url_of tbl u = NotFound ↔
  ∀ k r, tbl !! k = Some r → url_of r ≠ u.
Proof.
  unfold objects_get. split.
  - intros H k r Hk Hu.
    assert (Hf : filter (λ kr, url_of kr.2 = u) tbl !! k = Some r)
      by (apply map_lookup_filter_Some; done).
    apply elem_of_map_to_list in Hf.
    destruct (map_to_list _) as [|[??] [|??]]; [|done..].
    by apply elem_of_nil in Hf.
  - intros H.
    assert (Hf : filter (λ kr, url_of kr.2 = u) tbl = ∅).
    { apply map_empty. intros k. apply map_lookup_filter_None.
      right. intros r Hk. by apply H in Hk. }
    by rewrite Hf, map_to_list_empty.
Qed.

Lemma objects_get_Found tbl u k r :
  objects_get url_of tbl u = Found k r → tbl !! k = Some r ∧ url_of r = u.
Proof.
  unfold objects_get. intros H.
  destruct (map_to_list _) as [|[k' r'] [|??]] eqn:Hl; simplify_eq.
  assert (Hin : (k, r) ∈ map_to_list (filter (λ kr, url_of kr.2 = u) tbl))
    by (rewrite Hl; left).
  apply elem_of_map_to_list, map_lookup_filter_Some in Hin. done.
Qed.

Lemma objects_get_insert_Found tbl u k r :
  objects_get url_of tbl u = NotFound → url_of r = u →
  objects_get url_of (<[k := r]> tbl) u = Found k r.
Proof.
  intros Hn Hu. unfold objects_get.
  rewrite map_filter_insert_True by done.
  assert (Hf : filter (λ kr, url_of kr.2 = u) tbl = ∅).
  { apply map_empty. intros i. apply map_lookup_filter_None.
    right. intros r' Hk. eapply objects_get_NotFound; eauto. }
  rewrite Hf, insert_empty, map_to_list_singleton. done.
Qed.

Lemma objects_get_insert_other tbl u k r :
  tbl !! k = None → url_of r ≠ u →
  objects_get url_of (<[k := r]> tbl) u = objects_get url_of tbl u.
Proof.
  intros Hk Hu. unfold objects_get.
  rewrite map_filter_insert_not'; [done|done|]. intros y Hy. congruence.
Qed.
End objects.

(** ** Running the monad *)

Ltac run :=
  unfold py_get, py_get_default, py_copy, py_setitem, str_ne_item, getattr,
    draw_uuid4, set_issuers, set_badgeclasses, set_badgeinstances, emit,
    get_world, raise, mbind, M_bind, mret, M_ret in *;
  simpl in *.

Lemma bind_inv_Ok {A B} (m : M A) (f : A → M B) w b w' :
  (m ≫= f) w = (Ok b, w') → ∃ a w1, m w = (Ok a, w1) ∧ f a w1 = (Ok b, w').
Proof.
  unfold mbind, M_bind. destruct (m w) as [[a|e] w1]; [eauto | done].
Qed.

Lemma bind_inv_Raise {A B} (m : M A) (f : A → M B) w e w' :
  (m ≫= f) w = (Raise e, w') →
  m w = (Raise e, w') ∨ ∃ a w1, m w = (Ok a, w1) ∧ f a w1 = (Raise e, w').
Proof.
  unfold mbind, M_bind. destruct (m w) as [[a|e1] w1]; [eauto|].
  intros [= -> ->]. by left.
Qed.

Tactic Notation "run" "in" hyp(H) :=
  unfold py_get, py_get_default, py_copy, py_setitem, str_ne_item, getattr,
    draw_uuid4, set_issuers, set_badgeclasses, set_badgeinstances, emit,
    get_world, raise, mbind, M_bind, mret, M_ret in H;
  simpl in H.

Ltac bind_ok H a w1 Hm :=
  apply bind_inv_Ok in H as (a & w1 & Hm & H).

Ltac bind_raise H a w1 Hm :=
  apply bind_inv_Raise in H as [H|(a & w1 & Hm & H)].

Lemma Issuer_outcome abi kwargs w res w' :
  Issuer.from_analyzed_instance abi kwargs w = (res, w') →
  (w' = w ∧
   ∀ pk row, res = Ok (Some (pk, row)) →
     issuers w !! pk = Some row ∧ issuer_url abi = Some (IssuerRow.url row) ∧
     objects_get IssuerRow.url (issuers w) (IssuerRow.url row) =
       Found pk row) ∨
  (∃ pk row,
     res = Ok (Some (pk, row)) ∧ w' = issuer_inserted pk row w ∧
     issuers w !! pk = None ∧ issuer_url abi = Some (IssuerRow.url row) ∧
     objects_get IssuerRow.url (issuers w) (IssuerRow.url row) = NotFound).
Proof.
  unfold Issuer.from_analyzed_instance, Issuer.save_new. intros H.
  destruct (is_valid abi); run; [|left; by simplify_eq].
  destruct (issuer_url abi) as [u|]; [|left; by simplify_eq].
  destruct (objects_get _ _ u) as [k r| |] eqn:Hget; run.
  - apply objects_get_Found in Hget as Hk. destruct Hk as [??].
    left. simplify_eq.
    split; [done|]. intros ?? [= <- <-]. by subst.
  - destruct (issuer abi); [|left; by simplify_eq].
    destruct (data abi) as [| | | | |dd]; try (left; by simplify_eq).
    destruct (default (JDict ∅) (dd !! "badge")) as [| | | | |bd];
      try (left; by simplify_eq).
    destruct (default JNull (bd !! "issuer")) as [| | | | |d];
      try (left; by simplify_eq).
    right. simplify_eq. eexists _, _. split; [done|].
    unfold issuer_inserted. simpl.
    split_and!; try done. apply next_pk_fresh.
  - left. by simplify_eq.
Qed.

(** ** Validation failures *)

(** C3: on a payload for which [is_valid()] is false, each of the three
    [from_analyzed_instance] methods raises [ValidationError] and leaves
    the store as it was. *)
Theorem invalid_payload_raises env abi kwargs w :
  is_valid abi = false →
  Issuer.from_analyzed_instance abi kwargs w =
    (Raise (ValidationError
              "Cannot save badgeclass from an invalid badge instance."), w) ∧
  BadgeClass.from_analyzed_instance abi kwargs w =
    (Raise (ValidationError
              "Cannot save badgeclass from an invalid badge instance."), w) ∧
  BadgeInstance.from_analyzed_instance env abi kwargs w =
    (Raise (ValidationError "Cannot save an invalid badge instance."), w).
Proof.
  intros Hv.
  unfold Issuer.from_analyzed_instance, BadgeClass.from_analyzed_instance,
    BadgeInstance.from_analyzed_instance.
  rewrite Hv. done.
Qed.

Lemma invalid_payload_raises_witness :
  BadgeInstance.from_analyzed_instance sample_env invalid_abi user_kwargs
    empty_world =
  (Raise (ValidationError "Cannot save an invalid badge instance."),
   empty_world).
Proof.
  apply (invalid_payload_raises sample_env invalid_abi user_kwargs empty_world).
  reflexivity.
Defined.

(** ** Legacy payloads *)

(** C6: on a valid payload whose [issuer_url] (respectively [badge_url])
    raises [AttributeError], [Issuer.from_analyzed_instance] (respectively
    [BadgeClass.from_analyzed_instance]) returns [None], raises nothing
    and leaves the store as it was. *)
Theorem legacy_payload_returns_none abi kwargs w :
  is_valid abi = true →
  (issuer_url abi = None →
   Issuer.from_analyzed_instance abi kwargs w = (Ok None, w)) ∧
  (badge_url abi = None →
   BadgeClass.from_analyzed_instance abi kwargs w = (Ok None, w)).
Proof.
  intros Hv.
  unfold Issuer.from_analyzed_instance, BadgeClass.from_analyzed_instance.
  rewrite Hv. split; intros ->; done.
Qed.

Lemma legacy_payload_returns_none_witness :
  Issuer.from_analyzed_instance legacy_abi no_kwargs empty_world =
    (Ok None, empty_world) ∧
  BadgeClass.from_analyzed_instance legacy_abi no_kwargs empty_world =
    (Ok None, empty_world).
Proof.
  destruct (legacy_payload_returns_none legacy_abi no_kwargs empty_world)
    as [Hi Hb]; [reflexivity|].
  split; [apply Hi | apply Hb]; reflexivity.
Defined.

(** ** The image URL *)

Lemma prefix_startswith p s : String.prefix p s = true ↔ startswith s p.
Proof.
  unfold startswith. revert s.
  induction p as [|a p IH]; intros [|b s]; simpl.
  - split; [intros _; by exists "" | done].
  - split; [intros _; by exists (String b s) | done].
  - split; [done | intros [rest ?]; done].
  - destruct (Ascii.ascii_dec a b) as [->|Hne].
    + rewrite IH. split; intros [rest Hr]; exists rest.
      * rewrite Hr. reflexivity.
      * change (String b s = String b (p +:+ rest)) in Hr. congruence.
    + split; [done | intros [rest Hr]].
      change (String b s = String a (p +:+ rest)) in Hr. congruence.
Qed.

(** C5: [image_url()] is [MEDIA_URL + image.name] when [MEDIA_URL] starts
    with "http", and [HTTP_ORIGIN + MEDIA_URL + image.name] otherwise. *)
Theorem image_url_spec cfg self :
  (startswith (MEDIA_URL cfg) "http" →
   BadgeInstance.image_url cfg self =
     MEDIA_URL cfg +:+ name (BadgeInstanceRow.image self)) ∧
  (¬ startswith (MEDIA_URL cfg) "http" →
   BadgeInstance.image_url cfg self =
     (HTTP_ORIGIN cfg +:+ MEDIA_URL cfg) +:+
       name (BadgeInstanceRow.image self)).
Proof.
  unfold BadgeInstance.image_url.
  destruct (String.prefix "http" (MEDIA_URL cfg)) eqn:Hp.
  - apply prefix_startswith in Hp. split; [done | intros []; done].
  - split; [|done]. intros Hs%prefix_startswith. congruence.
Qed.

Lemma image_url_spec_witness :
  BadgeInstance.image_url cdn_settings sample_row =
    "https://cdn.example/media/uploads/badges/x.png" ∧
  BadgeInstance.image_url (settings sample_env) sample_row =
    "http://localhost:8000/media/uploads/badges/x.png".
Proof.
  split.
  - apply (proj1 (image_url_spec cdn_settings sample_row)).
    exists "s://cdn.example/media/". reflexivity.
  - apply (proj2 (image_url_spec (settings sample_env) sample_row)).
    intros Hs%prefix_startswith. vm_compute in Hs. discriminate Hs.
Defined.

(** ** Rows created for issuers and badge classes *)

(** C7: a row created by [Issuer.from_analyzed_instance] (respectively
    [BadgeClass.from_analyzed_instance]) from a valid payload carries one
    error record [(code, message, detail)] for the version-detection
    failure when the version is [None], and an empty error list when the
    version was detected; no exception is raised, and the stored JSON
    document has the context ['https://w3id.org/openbadges/v1']. *)
Theorem created_row_records_version_detection abi kwargs w :
  is_valid abi = true →
  (∀ u c dd bd d,
     issuer_url abi = Some u →
     objects_get IssuerRow.url (issuers w) u = NotFound →
     issuer abi = Some c →
     data abi = JDict dd → dd !! "badge" = Some (JDict bd) →
     bd !! "issuer" = Some (JDict d) →
     ∃ pk row,
       Issuer.from_analyzed_instance abi kwargs w =
         (Ok (Some (pk, row)), issuer_inserted pk row w) ∧
       issuers w !! pk = None ∧
       (version c = None →
        IssuerRow.errors row =
          [("error.version_detection",
            "Could not determine Open Badges version of Issuer",
            version_errors c)]) ∧
       (version c ≠ None → IssuerRow.errors row = []) ∧
       IssuerRow.json row =
         JDict (<["@context" := JStr "https://w3id.org/openbadges/v1"]> d) ∧
       IssuerRow.url row = u) ∧
  (∀ u c dd bd issuer_pk issuer_row w1,
     badge_url abi = Some u →
     objects_get BadgeClassRow.url (badgeclasses w) u = NotFound →
     badge abi = Some c →
     data abi = JDict dd → dd !! "badge" = Some (JDict bd) →
     Issuer.from_analyzed_instance abi kwargs w =
       (Ok (Some (issuer_pk, issuer_row)), w1) →
     ∃ pk row,
       BadgeClass.from_analyzed_instance abi kwargs w =
         (Ok (Some (pk, row)), badgeclass_inserted pk row w1) ∧
       badgeclasses w1 !! pk = None ∧
       (version c = None →
        BadgeClassRow.errors row =
          [("error.version_detection",
            "Could not determine Open Badges version of BadgeClass",
            version_errors c)]) ∧
       (version c ≠ None → BadgeClassRow.errors row = []) ∧
       BadgeClassRow.json row =
         JDict (<["@context" := JStr "https://w3id.org/openbadges/v1"]> bd) ∧
       BadgeClassRow.url row = u ∧
       BadgeClassRow.issuer row = issuer_pk).
Proof.
  intros Hv. split.
  - intros u c dd bd d Hu Hget Hc Hdata Hbadge Hissuer.
    unfold Issuer.from_analyzed_instance, Issuer.save_new.
    rewrite Hv, Hu. run. rewrite Hget, Hc, Hdata. run.
    rewrite Hbadge. simpl. rewrite Hissuer. simpl.
    eexists _, _. split; [reflexivity|]. simpl.
    split_and!; try done; [apply next_pk_fresh|..];
      destruct (version c); done.
  - intros u c dd bd ipk irow w1 Hu Hget Hc Hdata Hbadge Hsub.
    unfold BadgeClass.from_analyzed_instance, BadgeClass.save_new.
    rewrite Hv, Hu. run. rewrite Hget, Hc, Hdata. run.
    rewrite Hbadge. simpl. rewrite Hsub.
    eexists _, _. split; [reflexivity|]. simpl.
    apply Issuer_outcome in Hsub as [[-> _]|(?&?&?&->&_)]; simpl.
    all: split_and!; try done; [apply next_pk_fresh|..];
      destruct (version c); done.
Qed.

Lemma created_row_records_version_detection_witness :
  (∃ pk row,
     Issuer.from_analyzed_instance sample_abi no_kwargs empty_world =
       (Ok (Some (pk, row)), issuer_inserted pk row empty_world) ∧
     IssuerRow.errors row = []) ∧
  (∃ pk row w1,
     BadgeClass.from_analyzed_instance sample_abi no_kwargs empty_world =
       (Ok (Some (pk, row)), badgeclass_inserted pk row w1) ∧
     BadgeClassRow.errors row =
       [("error.version_detection",
         "Could not determine Open Badges version of BadgeClass",
         JList [JStr "no version"])]).
Proof.
  destruct (created_row_records_version_detection
              sample_abi no_kwargs empty_world eq_refl) as [Hi Hb].
  split.
  - destruct (Hi "http://issuer.example/1"
                {| version := Some "1.0"; version_errors := JNull |}
                sample_data sample_badge_json sample_issuer_json)
      as (pk & row & Hrun & _ & _ & Herr & _); [reflexivity..|].
    exists pk, row. split; [exact Hrun | apply Herr; discriminate].
  - destruct (Hb "http://issuer.example/badge/1"
                {| version := None;
                   version_errors := JList [JStr "no version"] |}
                sample_data sample_badge_json 1%positive sample_issuer_row
                (issuer_inserted 1 sample_issuer_row empty_world))
      as (pk & row & Hrun & _ & Herr & _);
      [reflexivity | reflexivity | reflexivity | reflexivity | reflexivity
      | vm_compute; reflexivity |].
    exists pk, row, (issuer_inserted 1 sample_issuer_row empty_world).
    split; [exact Hrun | apply Herr; reflexivity].
Defined.

(** ** Repeat lookups of a BadgeInstance *)

(** C4: when exactly one BadgeInstance row is stored under the payload's
    [instance_url], a row without recipient user and options that supply
    a user [U] make the call store [recipient_user = U] on that row and
    return it; when the row has a recipient user already, or the options
    supply none, the row is returned and the store is left as it was. *)
Theorem existing_instance_recipient_attached env abi kwargs w pk row :
  is_valid abi = true →
  objects_get BadgeInstanceRow.url (badgeinstances w) (instance_url abi) =
    Found pk row →
  (∀ U,
     BadgeInstanceRow.recipient_user row = None →
     kwargs_get_recipient_user kwargs = Some U →
     let row' := BadgeInstanceRow.with_recipient_user (Some U) row in
     BadgeInstance.from_analyzed_instance env abi kwargs w =
       (Ok (pk, row', abi), badgeinstance_updated pk row' w) ∧
     badgeinstances (badgeinstance_updated pk row' w) !! pk = Some row' ∧
     BadgeInstanceRow.recipient_user row' = Some U) ∧
  (BadgeInstanceRow.recipient_user row ≠ None ∨
   kwargs_get_recipient_user kwargs = None →
   BadgeInstance.from_analyzed_instance env abi kwargs w =
     (Ok (pk, row, abi), w)).
Proof.
  intros Hv Hget. unfold BadgeInstance.from_analyzed_instance.
  rewrite Hv. run. rewrite Hget. split.
  - intros U Hnone HU. rewrite Hnone, HU. simpl.
    split_and!; [done | apply lookup_insert_eq | done].
  - intros [Hsome | Hnone].
    + by destruct (BadgeInstanceRow.recipient_user row).
    + rewrite Hnone. by destruct (BadgeInstanceRow.recipient_user row).
Qed.

Lemma existing_instance_recipient_attached_witness :
  BadgeInstance.from_analyzed_instance sample_env sample_abi user_kwargs
    sample_world =
  (Ok (5%positive,
       BadgeInstanceRow.with_recipient_user (Some 7%positive) sample_row,
       sample_abi),
   badgeinstance_updated 5
     (BadgeInstanceRow.with_recipient_user (Some 7%positive) sample_row)
     sample_world).
Proof.
  destruct (existing_instance_recipient_attached sample_env sample_abi
              user_kwargs sample_world 5%positive sample_row)
    as [Hattach _]; [reflexivity | vm_compute; reflexivity |].
  destruct (Hattach 7%positive) as [Hrun _]; [reflexivity | reflexivity |].
  exact Hrun.
Defined.

(** ** Outcomes of [BadgeClass.from_analyzed_instance] *)

Lemma BadgeClass_outcome abi kwargs w res w' :
  BadgeClass.from_analyzed_instance abi kwargs w = (res, w') →
  ∃ w1,
    (w1 = w ∨
     ∃ ipk irow, w1 = issuer_inserted ipk irow w ∧ issuers w !! ipk = None) ∧
    ((w' = w1 ∧
      ∀ pk row, res = Ok (Some (pk, row)) →
        w1 = w ∧ badgeclasses w !! pk = Some row ∧
        badge_url abi = Some (BadgeClassRow.url row) ∧
        objects_get BadgeClassRow.url (badgeclasses w)
          (BadgeClassRow.url row) = Found pk row) ∨
     (∃ pk row,
        res = Ok (Some (pk, row)) ∧ w' = badgeclass_inserted pk row w1 ∧
        badgeclasses w !! pk = None ∧
        badge_url abi = Some (BadgeClassRow.url row) ∧
        objects_get BadgeClassRow.url (badgeclasses w) (BadgeClassRow.url row)
          = NotFound ∧
        is_Some (issuers w1 !! BadgeClassRow.issuer row))).
Proof.
  unfold BadgeClass.from_analyzed_instance, BadgeClass.save_new. intros H.
  destruct (is_valid abi); run;
    [|exists w; split; [by left|]; left; by simplify_eq].
  destruct (badge_url abi) as [u|];
    [|exists w; split; [by left|]; left; by simplify_eq].
  destruct (objects_get _ _ u) as [k r| |] eqn:Hget; run.
  - apply objects_get_Found in Hget as Hk. destruct Hk as [??].
    exists w; split; [by left|]. left. simplify_eq.
    split; [done|]. intros ?? [= <- <-]. by subst.
  - destruct (badge abi); [|exists w; split; [by left|]; left; by simplify_eq].
    destruct (data abi) as [| | | | |dd];
      try (exists w; split; [by left|]; left; by simplify_eq).
    destruct (default JNull (dd !! "badge")) as [| | | | |bd];
      try (exists w; split; [by left|]; left; by simplify_eq).
    destruct (Issuer.from_analyzed_instance abi kwargs w) as [ires w1] eqn:Hi.
    exists w1. apply Issuer_outcome in Hi as Hi'.
    destruct Hi' as [[-> Hfound]|(ipk & irow & -> & -> & Hfresh & _)].
    + split; [by left|].
      destruct ires as [[[ipk irow]|]|]; simplify_eq; try by left.
      right. eexists _, _. split; [done|]. split; [done|]. simpl.
      destruct (Hfound _ _ eq_refl) as [Hin _].
      split_and!; try done; [apply next_pk_fresh].
    + split; [right; eauto|]. simplify_eq.
      right. eexists _, _. split; [done|]. split; [done|]. simpl.
      split_and!; try done; [apply next_pk_fresh|].
      rewrite lookup_insert_eq. done.
  - exists w; split; [by left|]. left. by simplify_eq.
Qed.

(** What [BadgeClass.from_analyzed_instance] leaves alone, and where a
    returned row is found. *)
Lemma BadgeClass_frame abi kwargs w res w' :
  BadgeClass.from_analyzed_instance abi kwargs w = (res, w') →
  badgeinstances w' = badgeinstances w ∧ drawn w' = drawn w ∧
  badgeclasses w ⊆ badgeclasses w' ∧
  (∃ tr, trace w' = (trace w ++ tr)%list ∧
         Forall (λ e, is_instance_write e = false ∧
                      is_recipient_lookup e = false) tr) ∧
  (∀ pk row, res = Ok (Some (pk, row)) → badgeclasses w' !! pk = Some row).
Proof.
  intros (w1 & Hw1 & Hres)%BadgeClass_outcome.
  assert (badgeinstances w1 = badgeinstances w ∧ drawn w1 = drawn w ∧
          badgeclasses w1 = badgeclasses w ∧
          ∃ tr, trace w1 = (trace w ++ tr)%list ∧
                Forall (λ e, is_instance_write e = false ∧
                             is_recipient_lookup e = false) tr)
    as (Hbi & Hd & Hbc & tr1 & Htr1 & Hfree1).
  { destruct Hw1 as [->|(ipk & irow & -> & _)]; simpl.
    - split_and!; try done. exists []. by rewrite app_nil_r.
    - split_and!; try done. eexists. split; [done|]. by repeat constructor. }
  destruct Hres as [[-> Hfound]|(pk & row & -> & -> & Hfresh & _ & _ & Hiss)];
    simpl.
  - rewrite Hbc. split_and!; try done; [by eexists|].
    intros pk row Hr. by destruct (Hfound pk row Hr) as (-> & Hin & _).
  - rewrite Hbi, Hd, Hbc, Htr1. split_and!; try done.
    + by apply insert_subseteq.
    + eexists. rewrite <-app_assoc. split; [done|].
      apply Forall_app. split; [done|]. by repeat constructor.
    + intros ?? [= <- <-]. by rewrite lookup_insert_eq.
Qed.

(** ** When a row is created

    The conditions under which C7 is stated are the ones under which a
    row is created. *)

(** X14: [Issuer.from_analyzed_instance] adds a row only for a valid
    payload whose [issuer_url] is not stored yet and that has an [issuer]
    attribute and a dictionary at [data['badge']['issuer']]; the new row
    carries that URL. *)
Lemma Issuer_creation_conditions abi kwargs w pk row w' :
  Issuer.from_analyzed_instance abi kwargs w = (Ok (Some (pk, row)), w') →
  issuers w !! pk = None →
  is_valid abi = true ∧
  ∃ c dd bd d,
    issuer_url abi = Some (IssuerRow.url row) ∧
    objects_get IssuerRow.url (issuers w) (IssuerRow.url row) = NotFound ∧
    issuer abi = Some c ∧ data abi = JDict dd ∧
    dd !! "badge" = Some (JDict bd) ∧ bd !! "issuer" = Some (JDict d).
Proof.
  unfold Issuer.from_analyzed_instance, Issuer.save_new. intros H Hnew.
  destruct (is_valid abi); run; [|done].
  destruct (issuer_url abi) as [u|]; [|done].
  destruct (objects_get _ _ u) as [k r| |] eqn:Hget; run; [|  |done].
  { apply objects_get_Found in Hget as [??]. simplify_eq. }
  destruct (issuer abi) as [c|]; [|done].
  destruct (data abi) as [| | | | |dd]; try done.
  destruct (dd !! "badge") as [[| | | | |bd]|] eqn:Hb; simpl in H; try done.
  destruct (bd !! "issuer") as [[| | | | |d]|] eqn:Hi; simpl in H; try done.
  simplify_eq. simpl. split; [done|]. by eexists _, _, _, _.
Qed.

(** X15: [BadgeClass.from_analyzed_instance] adds a row only for a valid
    payload whose [badge_url] is not stored yet, that has a [badge]
    attribute and a dictionary at [data['badge']], and for which
    [Issuer.from_analyzed_instance] returned an Issuer; the new row refers
    to that Issuer. *)
Lemma BadgeClass_creation_conditions abi kwargs w pk row w' :
  BadgeClass.from_analyzed_instance abi kwargs w =
    (Ok (Some (pk, row)), w') →
  badgeclasses w !! pk = None →
  is_valid abi = true ∧
  ∃ c dd bd issuer_row w1,
    badge_url abi = Some (BadgeClassRow.url row) ∧
    objects_get BadgeClassRow.url (badgeclasses w) (BadgeClassRow.url row) =
      NotFound ∧
    badge abi = Some c ∧ data abi = JDict dd ∧
    dd !! "badge" = Some (JDict bd) ∧
    Issuer.from_analyzed_instance abi kwargs w =
      (Ok (Some (BadgeClassRow.issuer row, issuer_row)), w1).
Proof.
  unfold BadgeClass.from_analyzed_instance, BadgeClass.save_new.
  intros H Hnew.
  destruct (is_valid abi); run; [|done].
  destruct (badge_url abi) as [u|]; [|done].
  destruct (objects_get _ _ u) as [k r| |] eqn:Hget; run; [|  |done].
  { apply objects_get_Found in Hget as [??]. simplify_eq. }
  destruct (badge abi) as [c|]; [|done].
  destruct (data abi) as [| | | | |dd]; try done.
  destruct (dd !! "badge") as [[| | | | |bd]|] eqn:Hb; simpl in H; try done.
  destruct (Issuer.from_analyzed_instance abi kwargs w)
    as [[[[ipk irow]|]|] w1] eqn:Hi; try done.
  simplify_eq. simpl. split; [done|]. by eexists _, _, _, _, _.
Qed.

(** ** Creating a BadgeInstance *)

Lemma write_fields_json obj row :
  BadgeInstanceRow.write_fields ["json"] obj row =
  BadgeInstanceRow.with_json (BadgeInstanceRow.json obj) row.
Proof. reflexivity. Qed.

Lemma BadgeInstance_created env abi kwargs w pk obj abi' w' :
  is_valid abi = true →
  objects_get BadgeInstanceRow.url (badgeinstances w) (instance_url abi) =
    NotFound →
  BadgeInstance.from_analyzed_instance env abi kwargs w =
    (Ok (pk, obj, abi'), w') →
  ∃ bopt w1 row1 d1 url0 tr,
    BadgeClass.from_analyzed_instance abi kwargs
      (recipient_looked_up (recipient_id abi) w) = (Ok bopt, w1) ∧
    pk = next_pk (badgeinstances w) ∧
    BadgeInstanceRow.json row1 = JDict d1 ∧
    d1 !! "image" = Some (JStr url0) ∧
    BadgeInstanceRow.errors row1 = all_errors abi ∧
    BadgeInstanceRow.url row1 = "" ∧
    BadgeInstanceRow.badgeclass row1 = fst <$> bopt ∧
    BadgeInstanceRow.issuer row1 =
      (λ b, BadgeClassRow.issuer b.2) <$> bopt ∧
    BadgeInstanceRow.recipient_id row1 = recipient_id abi ∧
    BadgeInstanceRow.recipient_user row1 =
      kwargs_get_recipient_user_default kwargs
        (find_recipient_user env (recipient_id abi)) ∧
    Forall (λ e, is_instance_write e = false ∧
                 is_recipient_lookup e = false) tr ∧
    issuers w' = issuers w1 ∧ badgeclasses w' = badgeclasses w1 ∧
    badgeinstances w' = <[pk := obj]> (badgeinstances w) ∧
    data abi' = BadgeInstanceRow.json obj ∧
    ((BadgeInstance.image_url (settings env) row1 = url0 ∧ obj = row1 ∧
      trace w' = (trace w1 ++ tr ++ [EvInsert pk (ABadgeInstance row1)])%list) ∨
     (BadgeInstance.image_url (settings env) row1 ≠ url0 ∧
      obj = BadgeInstanceRow.with_json
              (JDict (<["image" :=
                          JStr (BadgeInstance.image_url (settings env) row1)]>
                        d1)) row1 ∧
      trace w' = (trace w1 ++ tr ++
                  [EvInsert pk (ABadgeInstance row1);
                   EvUpdate pk (Some ["json"]) (ABadgeInstance obj)])%list)).
Proof.
  intros Hv Hget. unfold BadgeInstance.from_analyzed_instance.
  rewrite Hv. cbn [negb]. intros H.
  bind_ok H w0 w0' Hw0. injection Hw0 as <- <-. rewrite Hget in H.
  bind_ok H u0 wl Hl. injection Hl as _ <-.
  fold (recipient_looked_up (recipient_id abi) w) in H.
  bind_ok H bopt w1 Hbc.
  apply BadgeClass_frame in Hbc as Hframe.
  destruct Hframe as (Hbi & Hd & _ & _ & _). simpl in Hbi.
  bind_ok H image w2 Himg.
  assert (Hw2 : issuers w2 = issuers w1 ∧ badgeclasses w2 = badgeclasses w1 ∧
                badgeinstances w2 = badgeinstances w1 ∧
                ∃ tr, trace w2 = (trace w1 ++ tr)%list ∧
                  Forall (λ e, is_instance_write e = false ∧
                               is_recipient_lookup e = false) tr).
  { destruct (kw_image kwargs); run in Himg; simplify_eq; simpl.
    - split_and!; try done. exists []. by rewrite app_nil_r.
    - split_and!; try done. eexists. split; [done|]. by repeat constructor. }
  clear Himg. destruct Hw2 as (Hi2 & Hc2 & Hb2 & tr2 & Ht2 & Hf2).
  destruct (splitext (name image)) as [img_name img_ext] eqn:Hsplit.
  bind_ok H uuid w3 Hu. unfold draw_uuid4 in Hu. injection Hu as <- <-.
  bind_ok H json w4 Hj. simpl in Hj.
  destruct (data abi) as [| | | | |d] eqn:Hdata; try done.
  injection Hj as <- <-.
  set (url0 := BadgeInstance.image_url (settings env) _) in H.
  clearbody url0.
  bind_ok H new w5 Hn.
  assert (Hnew :
            BadgeInstanceRow.json new = JDict (<["image" := JStr url0]> d) ∧
            BadgeInstanceRow.errors new = all_errors abi ∧
            BadgeInstanceRow.url new = "" ∧
            BadgeInstanceRow.badgeclass new = fst <$> bopt ∧
            BadgeInstanceRow.issuer new =
              (λ b, BadgeClassRow.issuer b.2) <$> bopt ∧
            BadgeInstanceRow.recipient_id new = recipient_id abi ∧
            BadgeInstanceRow.recipient_user new =
              kwargs_get_recipient_user_default kwargs
                (find_recipient_user env (recipient_id abi)) ∧
            issuers w5 = issuers w2 ∧ badgeclasses w5 = badgeclasses w2 ∧
            badgeinstances w5 = badgeinstances w2 ∧
            trace w5 = (trace w2 ++ [EvUuid4])%list).
  { destruct bopt as [[b bc]|]; simpl in Hn.
    - bind_ok Hn ipk w5a Hiss. unfold BadgeInstance.badgeclass_issuer in Hiss.
      run in Hiss. destruct (issuers w2 !! _); simplify_eq.
      run in Hn. simplify_eq. simpl. done.
    - run in Hn. simplify_eq. simpl. done. }
  clear Hn.
  destruct Hnew as (Hjson & Herr & Hurl & Hbc' & Hiss & Hrid & Hru
                    & Hi5 & Hc5 & Hb5 & Ht5).
  bind_ok H saved w6 Hs. destruct saved as [pk' row1].
  unfold BadgeInstance.save_new in Hs.
  bind_ok Hs w5' w5'' Hg. injection Hg as <- <-.
  run in Hs. injection Hs as <- <- <-.
  bind_ok H differs w7 Hdf. simpl in Hdf. rewrite Hjson in Hdf.
  run in Hdf. rewrite lookup_insert_eq in Hdf. injection Hdf as <- <-.
  set (row1 := BadgeInstanceRow.with_image _ new) in *.
  assert (Hpk : next_pk (badgeinstances w5) = next_pk (badgeinstances w))
    by (by rewrite Hb5, Hb2, Hbi).
  destruct (String.eqb _ url0) eqn:Hne; simpl in H.
  - apply String.eqb_eq in Hne. run in H. injection H as <- <- <- <-.
    exists bopt, w1, row1, (<["image" := JStr url0]> d), url0,
      (tr2 ++ [EvUuid4])%list.
    simpl. rewrite Hb5, Hb2, Hbi, Ht5, Ht2, Hi5, Hi2, Hc5, Hc2, <-!app_assoc.
    split_and!; try done.
    + apply lookup_insert_eq.
    + apply Forall_app. split; [done|]. by repeat constructor.
    + by left.
  - apply String.eqb_neq in Hne.
    bind_ok H json' w8 Hj'. simpl in Hj'. rewrite Hjson in Hj'.
    run in Hj'. injection Hj' as <- <-.
    bind_ok H u1 w9 Hup. unfold BadgeInstance.save_update_fields in Hup.
    bind_ok Hup w8' w8'' Hg. injection Hg as <- <-.
    simpl in Hup. rewrite lookup_insert_eq in Hup. run in Hup.
    injection Hup as _ <-. run in H. injection H as <- <- <- <-.
    exists bopt, w1, row1, (<["image" := JStr url0]> d), url0,
      (tr2 ++ [EvUuid4])%list.
    simpl. rewrite insert_insert_eq.
    rewrite Hb5, Hb2, Hbi, Ht5, Ht2, Hi5, Hi2, Hc5, Hc2, <-!app_assoc.
    split_and!; try done.
    + apply lookup_insert_eq.
    + apply Forall_app. split; [done|]. by repeat constructor.
    + by right.
Qed.

(** A call that raises has written no BadgeInstance row and removed no
    BadgeClass row. *)
Lemma BadgeInstance_raise_frame env abi kwargs w e w' :
  BadgeInstance.from_analyzed_instance env abi kwargs w = (Raise e, w') →
  badgeinstances w' = badgeinstances w ∧ badgeclasses w ⊆ badgeclasses w'.
Proof.
  unfold BadgeInstance.from_analyzed_instance.
  destruct (is_valid abi); cbn [negb]; [|by intros [= _ <-]].
  intros H. bind_raise H w0 w0' Hw0; [done|]. injection Hw0 as <- <-.
  destruct (objects_get _ _ _) as [k r| |].
  - destruct (BadgeInstanceRow.recipient_user r),
      (kwargs_get_recipient_user kwargs); run in H; done.
  - bind_raise H u0 wl Hl; [done|]. injection Hl as _ <-.
    fold (recipient_looked_up (recipient_id abi) w) in H.
    bind_raise H bopt w1 Hbc.
    { by apply BadgeClass_frame in H as (-> & _ & ? & _). }
    apply BadgeClass_frame in Hbc as (Hbi & _ & Hsub & _).
    simpl in Hbi, Hsub.
    assert (Himg : ∀ image w2,
              match kw_image kwargs with
              | Some image => mret image
              | None => emit EvBakedImage;; mret (baked_image_from_abi env abi)
              end w1 = (image, w2) →
              badgeinstances w2 = badgeinstances w1 ∧
              badgeclasses w2 = badgeclasses w1 ∧ ∃ i, image = Ok i).
    { intros image w2. destruct (kw_image kwargs); intros Hi; run in Hi;
        simplify_eq; eauto. }
    bind_raise H image w2 Hi.
    { apply Himg in H as (_ & _ & ? & ?). done. }
    apply Himg in Hi as (Hb2 & Hc2 & _). clear Himg.
    rewrite <-Hb2 in Hbi. rewrite <-Hc2 in Hsub. clear Hb2 Hc2.
    destruct (splitext (name image)) as [img_name img_ext].
    bind_raise H uuid w3 Hu; [done|].
    unfold draw_uuid4 in Hu. injection Hu as <- <-.
    bind_raise H json w4 Hj.
    { destruct (data abi); run in H; by simplify_eq. }
    destruct (data abi) as [| | | | |d]; run in Hj; try done.
    injection Hj as <- <-.
    set (url0 := BadgeInstance.image_url (settings env) _) in H.
    clearbody url0.
    bind_raise H new w5 Hn.
    { destruct bopt as [[b bc]|]; simpl in H; [|done].
      bind_raise H ipk w5a Hiss; [|done].
      unfold BadgeInstance.badgeclass_issuer in H. run in H.
      destruct (issuers w2 !! _); by simplify_eq. }
    assert (Hnew : BadgeInstanceRow.json new =
                     JDict (<["image" := JStr url0]> d)).
    { destruct bopt as [[b bc]|]; simpl in Hn.
      - bind_ok Hn ipk w5a Hiss. run in Hn. by simplify_eq.
      - run in Hn. by simplify_eq. }
    clear Hn.
    bind_raise H saved w6 Hs.
    { unfold BadgeInstance.save_new in H. run in H. done. }
    destruct saved as [pk row1]. unfold BadgeInstance.save_new in Hs.
    run in Hs. injection Hs as <- <- <-.
    bind_raise H differs w7 Hdf.
    { simpl in H. rewrite Hnew in H. run in H.
      rewrite lookup_insert_eq in H. done. }
    simpl in Hdf. rewrite Hnew in Hdf. run in Hdf.
    rewrite lookup_insert_eq in Hdf. injection Hdf as <- <-.
    destruct (negb _); [|done].
    bind_raise H json' w8 Hj'.
    { simpl in H. rewrite Hnew in H. done. }
    simpl in Hj'. rewrite Hnew in Hj'. run in Hj'. injection Hj' as <- <-.
    bind_raise H u1 w9 Hup; [|done].
    unfold BadgeInstance.save_update_fields in H. run in H.
    rewrite lookup_insert_eq in H. done.
  - by injection H as _ <-.
Qed.

(** ** What a BadgeInstance call does to the BadgeInstance table *)

Lemma BadgeInstance_frame env abi kwargs w res w' :
  BadgeInstance.from_analyzed_instance env abi kwargs w = (res, w') →
  badgeclasses w ⊆ badgeclasses w' ∧
  (badgeinstances w' = badgeinstances w ∨
   (∃ pk row U,
      badgeinstances w !! pk = Some row ∧
      badgeinstances w' =
        <[pk := BadgeInstanceRow.with_recipient_user U row]>
          (badgeinstances w)) ∨
   (∃ pk obj abi',
      res = Ok (pk, obj, abi') ∧
      badgeinstances w !! pk = None ∧ BadgeInstanceRow.url obj = "" ∧
      badgeinstances w' = <[pk := obj]> (badgeinstances w))).
Proof.
  intros H. destruct (is_valid abi) eqn:Hv.
  2:{ unfold BadgeInstance.from_analyzed_instance in H. rewrite Hv in H.
      injection H as _ <-. split; [done | by left]. }
  destruct (objects_get BadgeInstanceRow.url (badgeinstances w)
              (instance_url abi)) as [k r| |] eqn:Hget.
  - apply objects_get_Found in Hget as Hk. destruct Hk as [Hk _].
    unfold BadgeInstance.from_analyzed_instance in H.
    rewrite Hv in H. cbn [negb] in H. run in H. rewrite Hget in H.
    destruct (BadgeInstanceRow.recipient_user r),
      (kwargs_get_recipient_user kwargs); simplify_eq; simpl;
      (split; [done|]); eauto 10.
  - destruct res as [[[pk obj] abi']|e].
    + destruct (BadgeInstance_created _ _ _ _ _ _ _ _ Hv Hget H)
        as (bopt & w1 & row1 & d1 & url0 & tr & Hbc & -> & _ & _ & _ & Hurl & _
            & _ & _ & _ & _ & _ & Hbcs & Hbi & _ & Hobj).
      apply BadgeClass_frame in Hbc as (_ & _ & Hsub & _). simpl in Hsub.
      rewrite Hbcs. split; [done|]. right. right.
      exists (next_pk (badgeinstances w)), obj, abi'.
      split_and!; try done; [apply next_pk_fresh|].
      by destruct Hobj as [(_ & -> & _)|(_ & -> & _)].
    + apply BadgeInstance_raise_frame in H as [Hbi Hsub].
      split; [done | by left].
  - unfold BadgeInstance.from_analyzed_instance in H.
    rewrite Hv in H. cbn [negb] in H. run in H. rewrite Hget in H.
    simplify_eq. split; [done | by left].
Qed.

(** ** The [url] of a BadgeInstance *)

Lemma step_instance_urls w w' :
  step w w' →
  instance_urls_kept w w' ∧ new_instance_urls_blank w w' ∧
  (all_instance_urls_blank w → all_instance_urls_blank w').
Proof.
  intros Hstep.
  assert (Hcases :
    badgeinstances w' = badgeinstances w ∨
    (∃ pk row U,
       badgeinstances w !! pk = Some row ∧
       badgeinstances w' =
         <[pk := BadgeInstanceRow.with_recipient_user U row]>
           (badgeinstances w)) ∨
    (∃ pk obj,
       badgeinstances w !! pk = None ∧ BadgeInstanceRow.url obj = "" ∧
       badgeinstances w' = <[pk := obj]> (badgeinstances w))).
  { destruct Hstep as [abi kwargs w res w' H|abi kwargs w res w' H
                      |env abi kwargs w res w' H].
    - left. by apply Issuer_outcome in H as [[-> _]|(? & ? & _ & -> & _)].
    - left. by apply BadgeClass_frame in H as (-> & _).
    - apply BadgeInstance_frame in H as [_ [?|[?|(pk & obj & ? & _ & ?)]]];
        eauto 10. }
  unfold instance_urls_kept, new_instance_urls_blank, all_instance_urls_blank.
  destruct Hcases as [->|[(pk & row & U & Hin & ->)|(pk & obj & Hnew & Hurl & ->)]].
  - split_and!; [by eauto | congruence | done].
  - assert (Hkept : ∀ k r',
              <[pk := BadgeInstanceRow.with_recipient_user U row]>
                (badgeinstances w) !! k = Some r' →
              ∃ r, badgeinstances w !! k = Some r ∧
                   BadgeInstanceRow.url r' = BadgeInstanceRow.url r).
    { intros k r'. destruct (decide (pk = k)) as [->|Hne].
      - rewrite lookup_insert_eq. intros [= <-]. eauto.
      - rewrite lookup_insert_ne by done. eauto. }
    split_and!.
    + intros k r Hk. destruct (decide (pk = k)) as [->|Hne].
      * rewrite lookup_insert_eq. simplify_eq. eauto.
      * rewrite lookup_insert_ne by done. eauto.
    + intros k r' Hk Hnone. apply Hkept in Hk as (r & Hr & _). congruence.
    + intros Hall k r' Hk. apply Hkept in Hk as (r & Hr & ->). eauto.
  - split_and!.
    + intros k r Hk. rewrite lookup_insert_ne by congruence. eauto.
    + intros k r' Hk Hnone. destruct (decide (pk = k)) as [->|Hne].
      * rewrite lookup_insert_eq in Hk. by simplify_eq.
      * rewrite lookup_insert_ne in Hk by done. congruence.
    + intros Hall k r' Hk. destruct (decide (pk = k)) as [->|Hne].
      * rewrite lookup_insert_eq in Hk. by simplify_eq.
      * rewrite lookup_insert_ne in Hk by done. eauto.
Qed.

(** C10: no operation of the module assigns the [url] of a BadgeInstance.
    Whatever the call and its outcome, the rows already stored keep their
    [url], every row the call adds has a blank [url], and a store whose
    BadgeInstance rows all have a blank [url] stays so. *)
Theorem instance_url_never_assigned w w' :
  step w w' →
  instance_urls_kept w w' ∧ new_instance_urls_blank w w' ∧
  (all_instance_urls_blank w → all_instance_urls_blank w').
Proof. apply step_instance_urls. Qed.

Lemma instance_url_never_assigned_witness :
  all_instance_urls_blank sample_creation.2.
Proof.
  apply (instance_url_never_assigned empty_world).
  - apply (step_badgeinstance sample_env sample_abi user_kwargs empty_world
             sample_creation.1).
    vm_compute. reflexivity.
  - intros k r Hk. vm_compute in Hk. discriminate Hk.
Defined.

(** A payload with a non-blank [instance_url] is never found in a store
    whose BadgeInstance rows have a blank [url]. *)
Lemma blank_urls_never_found w abi :
  all_instance_urls_blank w → instance_url abi ≠ "" →
  objects_get BadgeInstanceRow.url (badgeinstances w) (instance_url abi) =
    NotFound.
Proof.
  intros Hall Hne. apply objects_get_NotFound. intros k r Hk Hu.
  apply Hall in Hk. congruence.
Qed.

(** ** The issuer of a BadgeInstance *)

Lemma with_recipient_user_follows w U r :
  issuer_follows_badgeclass w r →
  issuer_follows_badgeclass w (BadgeInstanceRow.with_recipient_user U r).
Proof. done. Qed.

Lemma issuer_follows_badgeclass_mono w w' r :
  badgeclasses w ⊆ badgeclasses w' →
  issuer_follows_badgeclass w r → issuer_follows_badgeclass w' r.
Proof.
  intros Hsub Hr b Hb. destruct (Hr b Hb) as (bc & Hbc & ?).
  exists bc. split; [|done]. by eapply lookup_weaken.
Qed.

Lemma BadgeInstance_ok_follows env abi kwargs w pk obj abi' w' :
  BadgeInstance.from_analyzed_instance env abi kwargs w =
    (Ok (pk, obj, abi'), w') →
  objects_get BadgeInstanceRow.url (badgeinstances w) (instance_url abi) =
    NotFound ∨ issuers_follow_badgeclasses w →
  badgeinstances w' !! pk = Some obj ∧ issuer_follows_badgeclass w' obj.
Proof.
  intros H Hpre. destruct (is_valid abi) eqn:Hv.
  2:{ unfold BadgeInstance.from_analyzed_instance in H. by rewrite Hv in H. }
  destruct (objects_get BadgeInstanceRow.url (badgeinstances w)
              (instance_url abi)) as [k r| |] eqn:Hget.
  - destruct Hpre as [?|Hinv]; [done|].
    apply objects_get_Found in Hget as Hk. destruct Hk as [Hk _].
    apply Hinv in Hk as Hr.
    unfold BadgeInstance.from_analyzed_instance in H.
    rewrite Hv in H. cbn [negb] in H. run in H. rewrite Hget in H.
    destruct (BadgeInstanceRow.recipient_user r),
      (kwargs_get_recipient_user kwargs); simplify_eq; simpl; try done.
    by rewrite lookup_insert_eq.
  - destruct (BadgeInstance_created _ _ _ _ _ _ _ _ Hv Hget H)
      as (bopt & w1 & row1 & d1 & url0 & tr & Hbc & -> & _ & _ & _ & _ & Hb
          & Hi & _ & _ & _ & _ & Hbcs & Hbi & _ & Hobj).
    rewrite Hbi, lookup_insert_eq. split; [done|].
    apply BadgeClass_frame in Hbc as (_ & _ & _ & _ & Hin).
    assert (Hrow1 : issuer_follows_badgeclass w' row1).
    { intros b Hb'. rewrite Hb in Hb'. rewrite Hi, Hbcs.
      destruct bopt as [[b' bc]|]; simpl in *; simplify_eq.
      exists bc. split; [by apply Hin | done]. }
    by destruct Hobj as [(_ & -> & _)|(_ & -> & _)].
  - unfold BadgeInstance.from_analyzed_instance in H.
    rewrite Hv in H. cbn [negb] in H. run in H. by rewrite Hget in H.
Qed.

(** C2: a BadgeInstance returned by [BadgeInstance.from_analyzed_instance]
    that refers to a badge class refers to the issuer of that badge class.
    This holds for every row the call creates, and for a row it finds in
    a store whose rows all have the property. *)
Theorem instance_issuer_is_badgeclass_issuer
    env abi kwargs w pk obj abi' w' :
  BadgeInstance.from_analyzed_instance env abi kwargs w =
    (Ok (pk, obj, abi'), w') →
  objects_get BadgeInstanceRow.url (badgeinstances w) (instance_url abi) =
    NotFound ∨ issuers_follow_badgeclasses w →
  badgeinstances w' !! pk = Some obj ∧
  ∀ b, BadgeInstanceRow.badgeclass obj = Some b →
    ∃ bc, badgeclasses w' !! b = Some bc ∧
          BadgeInstanceRow.issuer obj = Some (BadgeClassRow.issuer bc).
Proof. apply BadgeInstance_ok_follows. Qed.

(** The property is an invariant of the store under the three
    operations. *)
Lemma issuers_follow_badgeclasses_preserved w w' :
  step w w' → issuers_follow_badgeclasses w → issuers_follow_badgeclasses w'.
Proof.
  intros Hstep Hinv.
  destruct Hstep as [abi kwargs w res w' H|abi kwargs w res w' H
                    |env abi kwargs w res w' H].
  - by apply Issuer_outcome in H as [[-> _]|(? & ? & _ & -> & _)].
  - apply BadgeClass_frame in H as (Hbi & _ & Hsub & _).
    intros k r Hk. rewrite Hbi in Hk.
    eapply issuer_follows_badgeclass_mono; eauto.
  - apply BadgeInstance_frame in H as Hframe.
    destruct Hframe as [Hsub [Hbi|[(pk & row & U & Hin & Hbi)
                                  |(pk & obj & abi' & -> & Hnew & _ & Hbi)]]];
      intros k r Hk; rewrite Hbi in Hk.
    + eapply issuer_follows_badgeclass_mono; eauto.
    + destruct (decide (pk = k)) as [->|Hne].
      * rewrite lookup_insert_eq in Hk. simplify_eq.
        eapply issuer_follows_badgeclass_mono; [done|].
        apply with_recipient_user_follows. eauto.
      * rewrite lookup_insert_ne in Hk by done.
        eapply issuer_follows_badgeclass_mono; eauto.
    + destruct (decide (pk = k)) as [->|Hne].
      * rewrite lookup_insert_eq in Hk. simplify_eq.
        eapply BadgeInstance_ok_follows; [done|]. by right.
      * rewrite lookup_insert_ne in Hk by done.
        eapply issuer_follows_badgeclass_mono; eauto.
Qed.

Lemma instance_issuer_is_badgeclass_issuer_witness :
  badgeinstances sample_creation.2 !! sample_created.1.1 =
    Some sample_created.1.2 ∧
  ∀ b, BadgeInstanceRow.badgeclass sample_created.1.2 = Some b →
    ∃ bc, badgeclasses sample_creation.2 !! b = Some bc ∧
          BadgeInstanceRow.issuer sample_created.1.2 =
            Some (BadgeClassRow.issuer bc).
Proof.
  apply (instance_issuer_is_badgeclass_issuer sample_env sample_abi
           user_kwargs empty_world _ _ sample_created.2).
  - vm_compute. reflexivity.
  - left. vm_compute. reflexivity.
Defined.

(** ** The second save of a new BadgeInstance *)

(** C8: when a BadgeInstance is created, the image URL is computed again
    after the first save.  If it equals the URL stored in the JSON
    document the first save is the only write of the row.  If it differs
    there is exactly one more write, with [update_fields=['json']]: the
    stored row then differs from the row of the first save in its JSON
    document only, where ['image'] holds the new URL. *)
Theorem second_save_writes_json_only env abi kwargs w pk obj abi' w' :
  is_valid abi = true →
  objects_get BadgeInstanceRow.url (badgeinstances w) (instance_url abi) =
    NotFound →
  BadgeInstance.from_analyzed_instance env abi kwargs w =
    (Ok (pk, obj, abi'), w') →
  ∃ row1 d1 url0 before,
    badgeinstances w !! pk = None ∧
    BadgeInstanceRow.json row1 = JDict d1 ∧
    d1 !! "image" = Some (JStr url0) ∧
    Forall (λ e, is_instance_write e = false) before ∧
    let eurl := BadgeInstance.image_url (settings env) row1 in
    (eurl = url0 →
     trace w' = (trace w ++ before ++
                 [EvInsert pk (ABadgeInstance row1)])%list ∧
     badgeinstances w' = <[pk := row1]> (badgeinstances w) ∧
     obj = row1) ∧
    (eurl ≠ url0 →
     ∃ row2,
       trace w' = (trace w ++ before ++
                   [EvInsert pk (ABadgeInstance row1);
                    EvUpdate pk (Some ["json"]) (ABadgeInstance row2)])%list ∧
       badgeinstances w' = <[pk := row2]> (badgeinstances w) ∧
       obj = row2 ∧
       BadgeInstanceRow.json row2 = JDict (<["image" := JStr eurl]> d1) ∧
       BadgeInstanceRow.errors row2 = BadgeInstanceRow.errors row1 ∧
       BadgeInstanceRow.url row2 = BadgeInstanceRow.url row1 ∧
       BadgeInstanceRow.badgeclass row2 = BadgeInstanceRow.badgeclass row1 ∧
       BadgeInstanceRow.issuer row2 = BadgeInstanceRow.issuer row1 ∧
       BadgeInstanceRow.recipient_id row2 =
         BadgeInstanceRow.recipient_id row1 ∧
       BadgeInstanceRow.recipient_user row2 =
         BadgeInstanceRow.recipient_user row1 ∧
       BadgeInstanceRow.image row2 = BadgeInstanceRow.image row1).
Proof.
  intros Hv Hget H.
  destruct (BadgeInstance_created _ _ _ _ _ _ _ _ Hv Hget H)
    as (bopt & w1 & row1 & d1 & url0 & tr & Hbc & -> & Hjson & Himage & _ & _
        & _ & _ & _ & _ & Hfree & _ & _ & Hbi & _ & Hobj).
  apply BadgeClass_frame in Hbc as (_ & _ & _ & (tr1 & Htr1 & Hfree1) & _).
  simpl in Htr1.
  exists row1, d1, url0,
    ([EvFindRecipientUser (recipient_id abi)] ++ tr1 ++ tr)%list.
  cbv zeta. split_and!; try done.
  - apply next_pk_fresh.
  - apply Forall_app. split; [by repeat constructor|].
    apply Forall_app. split; eapply Forall_impl; eauto; by intros ? [? ?].
  - intros Heq. destruct Hobj as [(_ & -> & Htr)|(Hne & _)]; [|done].
    rewrite Htr, Htr1, Hbi, <-!app_assoc. done.
  - intros Hne. destruct Hobj as [(Heq & _)|(_ & -> & Htr)]; [done|].
    eexists. rewrite Htr, Htr1, Hbi, <-!app_assoc. split_and!; done.
Qed.

Lemma second_save_writes_json_only_witness :
  let pk := sample_created.1.1 in
  let obj := sample_created.1.2 in
  let w' := sample_creation.2 in
    ∃ row1 d1 url0 before,
      badgeinstances empty_world !! pk = None ∧
      BadgeInstanceRow.json row1 = JDict d1 ∧
      d1 !! "image" = Some (JStr url0) ∧
      Forall (λ e, is_instance_write e = false) before ∧
      (BadgeInstance.image_url (settings sample_env) row1 = url0 →
       trace w' = (trace empty_world ++ before ++
                   [EvInsert pk (ABadgeInstance row1)])%list ∧
       badgeinstances w' = <[pk := row1]> (badgeinstances empty_world) ∧
       obj = row1) ∧
      (BadgeInstance.image_url (settings sample_env) row1 ≠ url0 →
       ∃ row2,
         trace w' = (trace empty_world ++ before ++
                     [EvInsert pk (ABadgeInstance row1);
                      EvUpdate pk (Some ["json"]) (ABadgeInstance row2)])%list ∧
         badgeinstances w' = <[pk := row2]> (badgeinstances empty_world) ∧
         obj = row2 ∧
         BadgeInstanceRow.json row2 =
           JDict (<["image" :=
                     JStr (BadgeInstance.image_url (settings sample_env) row1)]>
                    d1) ∧
         BadgeInstanceRow.errors row2 = BadgeInstanceRow.errors row1 ∧
         BadgeInstanceRow.url row2 = BadgeInstanceRow.url row1 ∧
         BadgeInstanceRow.badgeclass row2 = BadgeInstanceRow.badgeclass row1 ∧
         BadgeInstanceRow.issuer row2 = BadgeInstanceRow.issuer row1 ∧
         BadgeInstanceRow.recipient_id row2 =
           BadgeInstanceRow.recipient_id row1 ∧
         BadgeInstanceRow.recipient_user row2 =
           BadgeInstanceRow.recipient_user row1 ∧
         BadgeInstanceRow.image row2 = BadgeInstanceRow.image row1).
Proof.
  apply (second_save_writes_json_only sample_env sample_abi user_kwargs
           empty_world _ _ sample_created.2);
    [reflexivity | vm_compute; reflexivity | vm_compute; reflexivity].
Defined.

(** With the sample storage backend the committed name differs from the
    name the URL was first computed from, so the row is written twice. *)
Example sample_creation_writes :
  filter (λ e, is_instance_write e = true) (trace sample_creation.2) =
  [EvInsert 1
     (ABadgeInstance
        {| BadgeInstanceRow.json :=
             JDict (<["image" :=
                       JStr "http://localhost:8000/media/earned_badge_0.png"]>
                      sample_data);
           BadgeInstanceRow.errors := [];
           BadgeInstanceRow.url := "";
           BadgeInstanceRow.badgeclass := Some 1%positive;
           BadgeInstanceRow.issuer := Some 1%positive;
           BadgeInstanceRow.recipient_id := "recipient@example.org";
           BadgeInstanceRow.recipient_user := Some 7%positive;
           BadgeInstanceRow.image :=
             {| name := "uploads/badges/earned_badge_0.png" |} |});
   EvUpdate 1 (Some ["json"])
     (ABadgeInstance
        {| BadgeInstanceRow.json :=
             JDict (<["image" :=
                       JStr "http://localhost:8000/media/uploads/badges/earned_badge_0.png"]>
                      sample_data);
           BadgeInstanceRow.errors := [];
           BadgeInstanceRow.url := "";
           BadgeInstanceRow.badgeclass := Some 1%positive;
           BadgeInstanceRow.issuer := Some 1%positive;
           BadgeInstanceRow.recipient_id := "recipient@example.org";
           BadgeInstanceRow.recipient_user := Some 7%positive;
           BadgeInstanceRow.image :=
             {| name := "uploads/badges/earned_badge_0.png" |} |})].
Proof. vm_compute. reflexivity. Qed.

(** ** The recipient of a new BadgeInstance *)

(** C9 as stated fails: the default argument of [kwargs.get] is evaluated
    before the call, so [find_recipient_user] is consulted although a
    [recipient_user] was supplied. *)
Lemma recipient_lookup_consulted_when_supplied :
  ¬ recipient_resolution_as_stated sample_env sample_abi user_kwargs
      empty_world.
Proof.
  intros Hclaim.
  assert (Hrun :
    BadgeInstance.from_analyzed_instance sample_env sample_abi user_kwargs
      empty_world =
    (Ok (sample_created.1.1, sample_created.1.2, sample_created.2),
     sample_creation.2)) by (vm_compute; reflexivity).
  specialize (Hclaim _ _ _ _ (trace sample_creation.2) Hrun
                (lookup_empty _) eq_refl).
  simpl in Hclaim. destruct Hclaim as [_ Hnot].
  apply (Hnot "recipient@example.org"). left.
Qed.

(** C9, amended: when [BadgeInstance.from_analyzed_instance] creates a
    row, the recipient attached to it is the value bound to
    ['recipient_user'] in the options when the key is present (a null
    value included), and the result of [find_recipient_user] on the
    payload's [recipient_id] when the key is absent; [find_recipient_user]
    is consulted exactly once, first of all, whatever the options hold. *)
Theorem recipient_resolved_on_creation env abi kwargs w pk obj abi' w' :
  is_valid abi = true →
  objects_get BadgeInstanceRow.url (badgeinstances w) (instance_url abi) =
    NotFound →
  BadgeInstance.from_analyzed_instance env abi kwargs w =
    (Ok (pk, obj, abi'), w') →
  badgeinstances w' !! pk = Some obj ∧
  (∀ v, kw_recipient_user kwargs = Some v →
        BadgeInstanceRow.recipient_user obj = v) ∧
  (kw_recipient_user kwargs = None →
   BadgeInstanceRow.recipient_user obj =
     find_recipient_user env (recipient_id abi)) ∧
  ∃ rest,
    trace w' =
      (trace w ++ EvFindRecipientUser (recipient_id abi) :: rest)%list ∧
    Forall (λ e, is_recipient_lookup e = false) rest.
Proof.
  intros Hv Hget H.
  destruct (BadgeInstance_created _ _ _ _ _ _ _ _ Hv Hget H)
    as (bopt & w1 & row1 & d1 & url0 & tr & Hbc & -> & _ & _ & _ & _
        & _ & _ & _ & Hru & Hfree & _ & _ & Hbi & _ & Hobj).
  apply BadgeClass_frame in Hbc as (_ & _ & _ & (tr1 & Htr1 & Hfree1) & _).
  simpl in Htr1.
  assert (Hobj_ru : BadgeInstanceRow.recipient_user obj =
                    BadgeInstanceRow.recipient_user row1)
    by (by destruct Hobj as [(_ & -> & _)|(_ & -> & _)]).
  rewrite Hobj_ru, Hru. unfold kwargs_get_recipient_user_default.
  split_and!.
  - by rewrite Hbi, lookup_insert_eq.
  - by intros v ->.
  - by intros ->.
  - assert (Hfree' : Forall (λ e, is_recipient_lookup e = false) (tr1 ++ tr)).
    { apply Forall_app. split; eapply Forall_impl; eauto; by intros ? [? ?]. }
    destruct Hobj as [(_ & _ & ->)|(_ & _ & ->)]; rewrite Htr1;
      eexists; (split; [by rewrite <-!app_assoc|]);
      rewrite app_assoc; (apply Forall_app; split; [done|]);
      by repeat constructor.
Qed.

Lemma recipient_resolved_on_creation_witness :
  BadgeInstanceRow.recipient_user sample_created.1.2 = Some 7%positive ∧
  ∃ rest,
    trace sample_creation.2 =
      EvFindRecipientUser "recipient@example.org" :: rest.
Proof.
  destruct (recipient_resolved_on_creation sample_env sample_abi user_kwargs
              empty_world sample_created.1.1 sample_created.1.2
              sample_created.2 sample_creation.2)
    as (_ & Hsupplied & _ & rest & Htrace & _);
    [reflexivity | vm_compute; reflexivity | vm_compute; reflexivity |].
  split; [by apply Hsupplied | by exists rest].
Defined.

(** ** Repeated calls with the same URL *)

(** X1: a second call with a valid payload of the same [issuer_url],
    whatever else it holds, returns the Issuer the first call returned and
    writes nothing. *)
Lemma Issuer_idempotent abi1 kwargs1 abi2 kwargs2 w pk row w1 :
  Issuer.from_analyzed_instance abi1 kwargs1 w = (Ok (Some (pk, row)), w1) →
  is_valid abi2 = true → issuer_url abi2 = issuer_url abi1 →
  Issuer.from_analyzed_instance abi2 kwargs2 w1 = (Ok (Some (pk, row)), w1).
Proof.
  intros H1 Hv Hu.
  assert (Hfound : issuer_url abi1 = Some (IssuerRow.url row) ∧
                   objects_get IssuerRow.url (issuers w1) (IssuerRow.url row)
                     = Found pk row).
  { apply Issuer_outcome in H1
      as [[-> Hf]|(pk' & row' & [= <- <-] & -> & _ & ? & Hnf)].
    - by destruct (Hf pk row eq_refl) as (_ & ? & ?).
    - split; [done|]. simpl. by apply objects_get_insert_Found. }
  destruct Hfound as [Hu1 Hget].
  unfold Issuer.from_analyzed_instance.
  rewrite Hv, Hu, Hu1. run. by rewrite Hget.
Qed.

(** X2: a second call with a valid payload of the same [badge_url]
    returns the BadgeClass the first call returned and writes nothing. *)
Lemma BadgeClass_idempotent abi1 kwargs1 abi2 kwargs2 w pk row w1 :
  BadgeClass.from_analyzed_instance abi1 kwargs1 w =
    (Ok (Some (pk, row)), w1) →
  is_valid abi2 = true → badge_url abi2 = badge_url abi1 →
  BadgeClass.from_analyzed_instance abi2 kwargs2 w1 =
    (Ok (Some (pk, row)), w1).
Proof.
  intros H1 Hv Hu.
  assert (Hfound : badge_url abi1 = Some (BadgeClassRow.url row) ∧
                   objects_get BadgeClassRow.url (badgeclasses w1)
                     (BadgeClassRow.url row) = Found pk row).
  { apply BadgeClass_outcome in H1 as (w0 & Hw0 & Hres).
    destruct Hres as [[-> Hf]|(pk' & row' & [= <- <-] & -> & _ & ? & Hnf & _)].
    - by destruct (Hf pk row eq_refl) as (-> & _ & ? & ?).
    - split; [done|]. simpl.
      apply objects_get_insert_Found; [|done].
      by destruct Hw0 as [->|(? & ? & -> & _)]. }
  destruct Hfound as [Hu1 Hget].
  unfold BadgeClass.from_analyzed_instance.
  rewrite Hv, Hu, Hu1. run. by rewrite Hget.
Qed.

(** X3: for BadgeInstance the lookup by [instance_url] cannot find a row
    the module created: in a store whose BadgeInstance rows have a blank
    [url], two successful calls with the same non-blank [instance_url]
    leave two rows under two keys. *)
Lemma BadgeInstance_not_idempotent
    env abi1 kwargs1 abi2 kwargs2 w pk1 obj1 abi1' w1 pk2 obj2 abi2' w2 :
  all_instance_urls_blank w → instance_url abi1 ≠ "" →
  instance_url abi2 = instance_url abi1 →
  BadgeInstance.from_analyzed_instance env abi1 kwargs1 w =
    (Ok (pk1, obj1, abi1'), w1) →
  BadgeInstance.from_analyzed_instance env abi2 kwargs2 w1 =
    (Ok (pk2, obj2, abi2'), w2) →
  pk1 ≠ pk2 ∧
  badgeinstances w !! pk1 = None ∧ badgeinstances w !! pk2 = None ∧
  badgeinstances w2 !! pk1 = Some obj1 ∧ badgeinstances w2 !! pk2 = Some obj2.
Proof.
  intros Hblank Hne Hu H1 H2.
  assert (Hblank1 : all_instance_urls_blank w1).
  { eapply step_instance_urls; [by eapply step_badgeinstance|done]. }
  assert (Hv1 : is_valid abi1 = true).
  { destruct (is_valid abi1) eqn:Hv; [done|].
    unfold BadgeInstance.from_analyzed_instance in H1. by rewrite Hv in H1. }
  assert (Hv2 : is_valid abi2 = true).
  { destruct (is_valid abi2) eqn:Hv; [done|].
    unfold BadgeInstance.from_analyzed_instance in H2. by rewrite Hv in H2. }
  pose proof (blank_urls_never_found w abi1 Hblank Hne) as Hget1.
  assert (Hne2 : instance_url abi2 ≠ "") by congruence.
  pose proof (blank_urls_never_found w1 abi2 Hblank1 Hne2) as Hget2.
  destruct (BadgeInstance_created _ _ _ _ _ _ _ _ Hv1 Hget1 H1)
    as (? & ? & ? & ? & ? & ? & _ & -> & _ & _ & _ & _ & _ & _ & _ & _ & _ & _
        & _ & Hbi1 & _).
  destruct (BadgeInstance_created _ _ _ _ _ _ _ _ Hv2 Hget2 H2)
    as (? & ? & ? & ? & ? & ? & _ & -> & _ & _ & _ & _ & _ & _ & _ & _ & _ & _
        & _ & Hbi2 & _).
  pose proof (next_pk_fresh (badgeinstances w)) as Hf1.
  pose proof (next_pk_fresh (badgeinstances w1)) as Hf2.
  assert (Hpk : next_pk (badgeinstances w) ≠ next_pk (badgeinstances w1)).
  { intros Heq. rewrite <-Heq, Hbi1, lookup_insert_eq in Hf2. done. }
  assert (Hsub : badgeinstances w ⊆ badgeinstances w1)
    by (rewrite Hbi1; by apply insert_subseteq).
  split_and!; try done.
  - destruct (badgeinstances w !! next_pk (badgeinstances w1)) eqn:Hk; [|done].
    eapply lookup_weaken in Hk; [|done]. congruence.
  - by rewrite Hbi2, lookup_insert_ne, Hbi1, lookup_insert_eq.
  - by rewrite Hbi2, lookup_insert_eq.
Qed.

(** C1 on the code: [Issuer] and [BadgeClass] are idempotent by URL (the
    two lemmas above), [BadgeInstance] is not.  In the empty store a call
    with the sample payload creates row 1; a second call with the payload
    as the first call left it, whose [instance_url] is the same, finds
    nothing and creates row 2, and so does a call with the pristine
    payload. *)
Theorem repeated_instance_call_adds_second_row :
  let first :=
    BadgeInstance.from_analyzed_instance sample_env sample_abi no_kwargs
      empty_world in
  let abi1 := returned_abi sample_abi first.1 in
  let second :=
    BadgeInstance.from_analyzed_instance sample_env abi1 no_kwargs first.2 in
  let third :=
    BadgeInstance.from_analyzed_instance sample_env sample_abi no_kwargs
      first.2 in
  returned_pk first.1 = Some 1%positive ∧
  size (badgeinstances first.2) = 1 ∧
  is_valid abi1 = true ∧ instance_url abi1 = instance_url sample_abi ∧
  returned_pk second.1 = Some 2%positive ∧
  size (badgeinstances second.2) = 2 ∧
  returned_pk third.1 = Some 2%positive ∧
  size (badgeinstances third.2) = 2.
Proof. vm_compute. repeat split. Qed.

(** * Further properties *)

(** ** Calls that raise *)


(** The store after [BadgeClass.from_analyzed_instance], whatever the
    outcome: it is unchanged unless a BadgeClass row was created. *)
Lemma BadgeClass_tables abi kwargs w res w' :
  BadgeClass.from_analyzed_instance abi kwargs w = (res, w') →
  badgeinstances w' = badgeinstances w ∧ drawn w' = drawn w ∧
  grows_by_url IssuerRow.url (issuers w) (issuers w') ∧
  (w' = w ∨
   ∃ pk row,
     res = Ok (Some (pk, row)) ∧ badgeclasses w !! pk = None ∧
     objects_get BadgeClassRow.url (badgeclasses w) (BadgeClassRow.url row) =
       NotFound ∧
     badgeclasses w' = <[pk := row]> (badgeclasses w) ∧
     is_Some (issuers w' !! BadgeClassRow.issuer row) ∧
     ∃ dd, data abi = JDict dd) ∧
  (∃ tr, trace w' = (trace w ++ tr)%list ∧
         Forall (λ e, is_insert e = true) tr).
Proof.
  unfold BadgeClass.from_analyzed_instance, BadgeClass.save_new. intros H.
  assert (Hsame : ∀ r, (r, w) = (res, w') →
    badgeinstances w' = badgeinstances w ∧ drawn w' = drawn w ∧
    grows_by_url IssuerRow.url (issuers w) (issuers w') ∧
    (w' = w ∨
     ∃ pk row,
       res = Ok (Some (pk, row)) ∧ badgeclasses w !! pk = None ∧
       objects_get BadgeClassRow.url (badgeclasses w) (BadgeClassRow.url row)
         = NotFound ∧
       badgeclasses w' = <[pk := row]> (badgeclasses w) ∧
       is_Some (issuers w' !! BadgeClassRow.issuer row) ∧
       ∃ dd, data abi = JDict dd) ∧
    (∃ tr, trace w' = (trace w ++ tr)%list ∧
           Forall (λ e, is_insert e = true) tr)).
  { intros r [= <- <-]. split_and!; try done; [by left | by left|].
    exists []. by rewrite app_nil_r. }
  destruct (is_valid abi); run in H; [|exact (Hsame _ H)].
  destruct (badge_url abi) as [u|]; [|exact (Hsame _ H)].
  destruct (objects_get _ _ u) as [k r| |] eqn:Hget; run in H;
    [exact (Hsame _ H)| |exact (Hsame _ H)].
  destruct (badge abi); [|exact (Hsame _ H)].
  destruct (data abi) as [| | | | |dd] eqn:Hdata; try exact (Hsame _ H).
  destruct (default JNull (dd !! "badge")) as [| | | | |bd];
    try exact (Hsame _ H).
  destruct (Issuer.from_analyzed_instance abi kwargs w) as [ires w1] eqn:Hi.
  apply Issuer_outcome in Hi as Hi'.
  destruct Hi' as [[-> Hfound]|(ipk & irow & -> & -> & Hfresh & _ & Hnf)].
  - destruct ires as [[[ipk irow]|]|]; simplify_eq; try exact (Hsame _ eq_refl).
    clear Hsame. simpl.
    destruct (Hfound _ _ eq_refl) as (Hin & _).
    split_and!; try done.
    + by left.
    + right. eexists _, _.
      split_and!; try done; try apply next_pk_fresh; by eexists.
    + eexists. split; [done|]. by repeat constructor.
  - clear Hsame. simplify_eq. simpl. split_and!; try done.
    + right. by eexists _, _.
    + right. eexists _, _.
      split_and!; try done; try apply next_pk_fresh;
        try (by rewrite lookup_insert_eq); by eexists.
    + eexists. rewrite <-app_assoc. split; [done|]. by repeat constructor.
Qed.

(** A BadgeInstance call that raises leaves the three tables as they
    were. *)
Lemma BadgeInstance_raise_tables env abi kwargs w e w' :
  BadgeInstance.from_analyzed_instance env abi kwargs w = (Raise e, w') →
  issuers w' = issuers w ∧ badgeclasses w' = badgeclasses w ∧
  badgeinstances w' = badgeinstances w.
Proof.
  unfold BadgeInstance.from_analyzed_instance.
  destruct (is_valid abi); cbn [negb]; [|by intros [= _ <-]].
  intros H. bind_raise H w0 w0' Hw0; [done|]. injection Hw0 as <- <-.
  destruct (objects_get _ _ _) as [k r| |].
  - destruct (BadgeInstanceRow.recipient_user r),
      (kwargs_get_recipient_user kwargs); run in H; done.
  - bind_raise H u0 wl Hl; [done|]. injection Hl as _ <-.
    fold (recipient_looked_up (recipient_id abi) w) in H.
    bind_raise H bopt w1 Hbc.
    { by apply BadgeClass_tables in H
        as (_ & _ & _ & [->|(? & ? & ? & _)] & _). }
    apply BadgeClass_tables in Hbc as (_ & _ & _ & Hcase & _).
    assert (Himg : ∀ image w2,
              match kw_image kwargs with
              | Some image => mret image
              | None => emit EvBakedImage;; mret (baked_image_from_abi env abi)
              end w1 = (image, w2) →
              issuers w2 = issuers w1 ∧ badgeclasses w2 = badgeclasses w1 ∧
              badgeinstances w2 = badgeinstances w1 ∧ ∃ i, image = Ok i).
    { intros image w2. destruct (kw_image kwargs); intros Hi; run in Hi;
        simplify_eq; eauto. }
    bind_raise H image w2 Hi.
    { apply Himg in H as (_ & _ & _ & ? & ?). done. }
    apply Himg in Hi as (Hi2 & Hc2 & Hb2 & _). clear Himg.
    destruct (splitext (name image)) as [img_name img_ext].
    bind_raise H uuid w3 Hu; [done|].
    unfold draw_uuid4 in Hu. injection Hu as <- <-.
    bind_raise H json w4 Hj.
    { destruct (data abi) eqn:Hdata; run in H; simplify_eq; simpl;
        rewrite Hi2, Hc2, Hb2;
        (destruct Hcase as [->|(? & ? & _ & _ & _ & _ & _ & ? & ?)];
         [done | congruence]). }
    destruct (data abi) as [| | | | |d]; run in Hj; try done.
    injection Hj as <- <-.
    set (url0 := BadgeInstance.image_url (settings env) _) in H.
    clearbody url0.
    bind_raise H new w5 Hn.
    { destruct bopt as [[b bc]|]; simpl in H; [|done].
      bind_raise H ipk w5a Hiss; [|done].
      unfold BadgeInstance.badgeclass_issuer in H. run in H.
      destruct (issuers w2 !! _) eqn:Hlook; simplify_eq. simpl.
      rewrite Hi2, Hc2, Hb2.
      destruct Hcase as [->|(? & ? & [= <- <-] & _ & _ & _ & [? Hsome] & _)];
        [done|]. congruence. }
    assert (Hnew : BadgeInstanceRow.json new =
                     JDict (<["image" := JStr url0]> d)).
    { destruct bopt as [[b bc]|]; simpl in Hn.
      - bind_ok Hn ipk w5a Hiss. run in Hn. by simplify_eq.
      - run in Hn. by simplify_eq. }
    clear Hn.
    bind_raise H saved w6 Hs.
    { unfold BadgeInstance.save_new in H. run in H. done. }
    destruct saved as [pk row1]. unfold BadgeInstance.save_new in Hs.
    run in Hs. injection Hs as <- <- <-.
    bind_raise H differs w7 Hdf.
    { simpl in H. rewrite Hnew in H. run in H.
      rewrite lookup_insert_eq in H. done. }
    simpl in Hdf. rewrite Hnew in Hdf. run in Hdf.
    rewrite lookup_insert_eq in Hdf. injection Hdf as <- <-.
    destruct (negb _); [|done].
    bind_raise H json' w8 Hj'.
    { simpl in H. rewrite Hnew in H. done. }
    simpl in Hj'. rewrite Hnew in Hj'. run in Hj'. injection Hj' as <- <-.
    bind_raise H u1 w9 Hup; [|done].
    unfold BadgeInstance.save_update_fields in H. run in H.
    rewrite lookup_insert_eq in H. done.
  - by injection H as _ <-.
Qed.

(** ** How the tables change in a step *)

Lemma grows_by_url_refl {R} (url_of : R → string) tbl :
  grows_by_url url_of tbl tbl.
Proof. by left. Qed.

Lemma instances_step_same w w' :
  badgeinstances w' = badgeinstances w → instances_step w w'.
Proof.
  intros Hbi. split.
  - intros k r Hk. exists r. rewrite Hbi. split; [done | by left].
  - intros k r' Hk Hnone. rewrite Hbi in Hk. congruence.
Qed.

Lemma new_badgeclass_issuer w w' :
  (badgeclasses w' = badgeclasses w ∨
   ∃ pk row, badgeclasses w !! pk = None ∧
             badgeclasses w' = <[pk := row]> (badgeclasses w) ∧
             is_Some (issuers w' !! BadgeClassRow.issuer row)) →
  ∀ k bc, badgeclasses w' !! k = Some bc → badgeclasses w !! k = None →
    is_Some (issuers w' !! BadgeClassRow.issuer bc).
Proof.
  intros [Heq|(pk & row & Hfresh & Heq & Hsome)] k bc Hk Hnone;
    rewrite Heq in Hk; [congruence|].
  destruct (decide (pk = k)) as [->|Hne].
  - rewrite lookup_insert_eq in Hk. by simplify_eq.
  - rewrite lookup_insert_ne in Hk by done. congruence.
Qed.

Lemma Issuer_table_step abi kwargs w res w' :
  Issuer.from_analyzed_instance abi kwargs w = (res, w') → table_step w w'.
Proof.
  intros [[-> _]|(pk & row & _ & -> & Hfresh & _ & Hnf)]%Issuer_outcome.
  - split_and!; try apply grows_by_url_refl; [congruence|].
    by apply instances_step_same.
  - split_and!; try apply grows_by_url_refl.
    + right. by exists pk, row.
    + simpl. congruence.
    + by apply instances_step_same.
Qed.

Lemma BadgeClass_table_step abi kwargs w res w' :
  BadgeClass.from_analyzed_instance abi kwargs w = (res, w') →
  table_step w w'.
Proof.
  intros (Hbi & _ & Hiss & Hcase & _)%BadgeClass_tables.
  split_and!; [done| | |by apply instances_step_same].
  - destruct Hcase as [->|(pk & row & _ & ? & ? & ? & _)];
      [by left | right; by exists pk, row].
  - apply new_badgeclass_issuer.
    destruct Hcase as [->|(pk & row & _ & ? & ? & ? & ? & _)];
      [by left | right; by exists pk, row].
Qed.

Lemma BadgeInstance_table_step env abi kwargs w res w' :
  BadgeInstance.from_analyzed_instance env abi kwargs w = (res, w') →
  table_step w w'.
Proof.
  intros H.
  assert (Hsame : issuers w' = issuers w → badgeclasses w' = badgeclasses w →
                  badgeinstances w' = badgeinstances w → table_step w w').
  { intros Hi Hc Hb. unfold table_step. rewrite Hi, Hc.
    split_and!; try apply grows_by_url_refl; [|by apply instances_step_same].
    intros k bc. congruence. }
  destruct (is_valid abi) eqn:Hv.
  2:{ unfold BadgeInstance.from_analyzed_instance in H. rewrite Hv in H.
      injection H as _ <-. by apply Hsame. }
  destruct (objects_get BadgeInstanceRow.url (badgeinstances w)
              (instance_url abi)) as [k r| |] eqn:Hget.
  - apply objects_get_Found in Hget as Hk. destruct Hk as [Hk _].
    unfold BadgeInstance.from_analyzed_instance in H.
    rewrite Hv in H. cbn [negb] in H. run in H. rewrite Hget in H.
    destruct (BadgeInstanceRow.recipient_user r) eqn:Hru,
      (kwargs_get_recipient_user kwargs) eqn:Hkw; simplify_eq;
      try by apply Hsame.
    clear Hsame.
    split_and!; try apply grows_by_url_refl; [simpl; congruence|].
    unfold instances_step. simpl. split.
    + intros k' r' Hk'. destruct (decide (k = k')) as [->|Hne].
      * rewrite lookup_insert_eq. simplify_eq. eexists. split; [done|].
        right. eauto.
      * rewrite lookup_insert_ne by done. exists r'. split; [done | by left].
    + intros k' r' Hk' Hnone. destruct (decide (k = k')) as [->|Hne];
        [congruence|]. rewrite lookup_insert_ne in Hk' by done. congruence.
  - destruct res as [[[pk obj] abi']|e].
    + destruct (BadgeInstance_ok_follows _ _ _ _ _ _ _ _ H (or_introl Hget))
        as [_ Hfollows].
      destruct (BadgeInstance_created _ _ _ _ _ _ _ _ Hv Hget H)
        as (bopt & w1 & row1 & d1 & url0 & tr & Hbc & -> & _ & _ & _ & Hurl
            & Hb & Hi & _ & _ & _ & Hiss & Hbcs & Hbi & _ & Hobj).
      apply BadgeClass_tables in Hbc as (_ & _ & Hgi & Hcase & _).
      simpl in Hgi, Hcase.
      assert (Hobj' : BadgeInstanceRow.url obj = "" ∧
                      BadgeInstanceRow.badgeclass obj = fst <$> bopt ∧
                      BadgeInstanceRow.issuer obj =
                        (λ b, BadgeClassRow.issuer b.2) <$> bopt).
      { by destruct Hobj as [(_ & -> & _)|(_ & -> & _)]. }
      destruct Hobj' as (Hurl' & Hb' & Hi').
      pose proof (next_pk_fresh (badgeinstances w)) as Hfresh.
      unfold table_step. rewrite Hiss, Hbcs.
      split_and!; [done| | |].
      * destruct Hcase as [->|(pk & row & _ & ? & ? & ? & _)];
          [by left | right; by exists pk, row].
      * apply (new_badgeclass_issuer w
                 {| issuers := issuers w1; badgeclasses := badgeclasses w1;
                    badgeinstances := badgeinstances w1; drawn := drawn w1;
                    trace := trace w1 |}).
        destruct Hcase as [->|(pk & row & _ & ? & ? & ? & ? & _)];
          [by left | right; by exists pk, row].
      * split.
        -- intros k r Hk. rewrite Hbi. rewrite lookup_insert_ne by congruence.
           exists r. split; [done | by left].
        -- intros k r' Hk Hnone. rewrite Hbi in Hk.
           destruct (decide (next_pk (badgeinstances w) = k)) as [<-|Hne].
           ++ rewrite lookup_insert_eq in Hk. simplify_eq.
              split_and!; [done|done|].
              rewrite Hi', Hb'. by destruct bopt.
           ++ rewrite lookup_insert_ne in Hk by done. congruence.
    + apply BadgeInstance_raise_tables in H as (? & ? & ?). by apply Hsame.
  - unfold BadgeInstance.from_analyzed_instance in H.
    rewrite Hv in H. cbn [negb] in H. run in H. rewrite Hget in H.
    simplify_eq. by apply Hsame.
Qed.

Lemma step_table_step w w' : step w w' → table_step w w'.
Proof.
  intros [abi kwargs w0 res w0' H|abi kwargs w0 res w0' H
         |env abi kwargs w0 res w0' H].
  - by eapply Issuer_table_step.
  - by eapply BadgeClass_table_step.
  - by eapply BadgeInstance_table_step.
Qed.

(** ** Tables without deletions *)

Lemma grows_by_url_subseteq {R} (url_of : R → string) tbl tbl' :
  grows_by_url url_of tbl tbl' → tbl ⊆ tbl'.
Proof.
  intros [->|(pk & row & Hfresh & _ & ->)]; [done|]. by apply insert_subseteq.
Qed.

(** X6: no operation removes or rewrites an Issuer or a BadgeClass row,
    and a stored BadgeInstance changes at most by getting a recipient user
    where it had none. *)
Theorem step_keeps_rows w w' :
  step w w' →
  issuers w ⊆ issuers w' ∧ badgeclasses w ⊆ badgeclasses w' ∧
  ∀ k r, badgeinstances w !! k = Some r →
    ∃ r', badgeinstances w' !! k = Some r' ∧ recipient_attached r r'.
Proof.
  intros (Hi & Hc & _ & Hb & _)%step_table_step.
  split_and!; [by eapply grows_by_url_subseteq..|done].
Qed.

Lemma step_keeps_rows_witness :
  issuers sample_creation.2 ⊆ issuers sample_second_creation.2 ∧
  badgeclasses sample_creation.2 ⊆ badgeclasses sample_second_creation.2 ∧
  ∀ k r, badgeinstances sample_creation.2 !! k = Some r →
    ∃ r', badgeinstances sample_second_creation.2 !! k = Some r' ∧
          recipient_attached r r'.
Proof.
  apply step_keeps_rows.
  apply (step_badgeinstance sample_env sample_abi no_kwargs sample_creation.2
           sample_second_creation.1).
  vm_compute. reflexivity.
Defined.

(** ** Unique URLs *)

Lemma grows_by_url_unique {R} (url_of : R → string) tbl tbl' :
  grows_by_url url_of tbl tbl' → url_unique url_of tbl → url_unique url_of tbl'.
Proof.
  intros [->|(pk & row & Hfresh & Hnf & ->)] Hu; [done|].
  assert (Hother : ∀ k r, tbl !! k = Some r → url_of r ≠ url_of row)
    by (by apply objects_get_NotFound).
  intros k1 k2 r1 r2 H1 H2 Heq.
  destruct (decide (pk = k1)) as [<-|Hne1], (decide (pk = k2)) as [<-|Hne2];
    try done.
  - rewrite lookup_insert_eq in H1. rewrite lookup_insert_ne in H2 by done.
    simplify_eq. by apply Hother in H2.
  - rewrite lookup_insert_eq in H2. rewrite lookup_insert_ne in H1 by done.
    simplify_eq. by apply Hother in H1.
  - rewrite lookup_insert_ne in H1, H2 by done. eauto.
Qed.

(** X7: find-or-create keeps URLs unique: when no two Issuer rows
    (respectively BadgeClass rows) share a [url] before an operation, none
    do after it. *)
Theorem step_keeps_urls_unique w w' :
  step w w' →
  (url_unique IssuerRow.url (issuers w) →
   url_unique IssuerRow.url (issuers w')) ∧
  (url_unique BadgeClassRow.url (badgeclasses w) →
   url_unique BadgeClassRow.url (badgeclasses w')).
Proof.
  intros (Hi & Hc & _)%step_table_step.
  split; by apply grows_by_url_unique.
Qed.

Lemma step_keeps_urls_unique_witness :
  url_unique IssuerRow.url (issuers sample_second_creation.2) ∧
  url_unique BadgeClassRow.url (badgeclasses sample_second_creation.2).
Proof.
  assert (Hstep1 : step empty_world sample_creation.2).
  { apply (step_badgeinstance sample_env sample_abi user_kwargs empty_world
             sample_creation.1). vm_compute. reflexivity. }
  assert (Hstep2 : step sample_creation.2 sample_second_creation.2).
  { apply (step_badgeinstance sample_env sample_abi no_kwargs
             sample_creation.2 sample_second_creation.1).
    vm_compute. reflexivity. }
  destruct (step_keeps_urls_unique _ _ Hstep1) as [Hi1 Hc1].
  destruct (step_keeps_urls_unique _ _ Hstep2) as [Hi2 Hc2].
  split.
  - apply Hi2, Hi1. intros k1 k2 r1 r2 H1. vm_compute in H1. discriminate H1.
  - apply Hc2, Hc1. intros k1 k2 r1 r2 H1. vm_compute in H1. discriminate H1.
Defined.

(** ** Referential integrity *)

Lemma recipient_attached_keys r r' :
  recipient_attached r r' →
  BadgeInstanceRow.badgeclass r' = BadgeInstanceRow.badgeclass r ∧
  BadgeInstanceRow.issuer r' = BadgeInstanceRow.issuer r ∧
  BadgeInstanceRow.url r' = BadgeInstanceRow.url r.
Proof. by intros [->|(_ & U & ->)]. Qed.

Lemma table_step_integrity w w' :
  table_step w w' → referential_integrity w → referential_integrity w'.
Proof.
  intros (Hi & Hc & Hnewbc & Hkept & Hnewbi) [Hbc Hbi].
  apply grows_by_url_subseteq in Hi as Hisub.
  apply grows_by_url_subseteq in Hc as Hcsub.
  assert (Hbc' : ∀ k bc, badgeclasses w' !! k = Some bc →
                   is_Some (issuers w' !! BadgeClassRow.issuer bc)).
  { intros k bc Hk. destruct (badgeclasses w !! k) as [bc0|] eqn:Hk0.
    - assert (bc0 = bc) as ->.
      { eapply lookup_weaken in Hk0; [|done]. congruence. }
      destruct (Hbc _ _ Hk0) as [i Hi0]. exists i. by eapply lookup_weaken.
    - by eapply Hnewbc. }
  split; [done|]. intros k r' Hk.
  destruct (badgeinstances w !! k) as [r|] eqn:Hk0.
  - destruct (Hkept _ _ Hk0) as (r'' & Hk'' & Hatt).
    assert (r'' = r') as -> by congruence.
    apply recipient_attached_keys in Hatt as (-> & -> & _).
    destruct (Hbi _ _ Hk0) as [Hb Hiss]. split.
    + intros b [bc ?]%Hb. exists bc. by eapply lookup_weaken.
    + intros i [ir ?]%Hiss. exists ir. by eapply lookup_weaken.
  - destruct (Hnewbi _ _ Hk Hk0) as (_ & Hfollows & Hboth). split.
    + intros b (bc & ? & _)%Hfollows. by exists bc.
    + intros i Hissuer.
      destruct Hboth as [b Hb]; [by rewrite Hissuer|].
      destruct (Hfollows _ Hb) as (bc & Hbclass & Hsame).
      assert (i = BadgeClassRow.issuer bc) as -> by congruence.
      by eapply Hbc'.
Qed.

(** X8: the operations keep the foreign keys of the store valid without
    help from the database: when every BadgeClass refers to a stored
    Issuer and every BadgeInstance to a stored BadgeClass and Issuer (or
    to none), the same holds after any of the three calls, whatever its
    outcome. *)
Theorem step_keeps_referential_integrity w w' :
  step w w' → referential_integrity w → referential_integrity w'.
Proof. intros Hstep%step_table_step. by apply table_step_integrity. Qed.

Lemma empty_world_integrity : referential_integrity empty_world.
Proof. split; intros k r Hk; simpl in Hk; by rewrite lookup_empty in Hk. Qed.

Lemma step_keeps_referential_integrity_witness :
  referential_integrity sample_second_creation.2.
Proof.
  apply (step_keeps_referential_integrity sample_creation.2).
  - apply (step_badgeinstance sample_env sample_abi no_kwargs
             sample_creation.2 sample_second_creation.1).
    vm_compute. reflexivity.
  - apply (step_keeps_referential_integrity empty_world).
    + apply (step_badgeinstance sample_env sample_abi user_kwargs empty_world
               sample_creation.1).
      vm_compute. reflexivity.
    + split; intros k r Hk; vm_compute in Hk; discriminate Hk.
Defined.

(** ** The stores the module builds *)

(** X9: every store built from the empty one by any sequence of calls to
    the three methods, failed calls included, has unique Issuer and
    BadgeClass URLs, valid foreign keys, BadgeInstance rows with a blank
    [url], and on each BadgeInstance the issuer of its badge class. *)
Theorem reachable_invariants w :
  reachable w →
  url_unique IssuerRow.url (issuers w) ∧
  url_unique BadgeClassRow.url (badgeclasses w) ∧
  referential_integrity w ∧
  all_instance_urls_blank w ∧
  issuers_follow_badgeclasses w.
Proof.
  unfold reachable. revert w. apply rtc_ind_r.
  - split_and!; try apply empty_world_integrity.
    + intros k1 k2 r1 r2 Hk. simpl in Hk. by rewrite lookup_empty in Hk.
    + intros k1 k2 r1 r2 Hk. simpl in Hk. by rewrite lookup_empty in Hk.
    + intros k r Hk. simpl in Hk. by rewrite lookup_empty in Hk.
    + intros k r Hk. simpl in Hk. by rewrite lookup_empty in Hk.
  - intros w w' Hsteps Hstep IH. destruct IH as (Hi & Hc & Hri & Hblank & Hfollow).
    apply step_table_step in Hstep as Htables.
    destruct Htables as (Hgi & Hgc & ?).
    split_and!.
    + by eapply grows_by_url_unique.
    + by eapply grows_by_url_unique.
    + eapply table_step_integrity; [|done]. by apply step_table_step.
    + by eapply step_instance_urls.
    + by eapply issuers_follow_badgeclasses_preserved.
Qed.

Lemma reachable_invariants_witness :
  url_unique IssuerRow.url (issuers sample_second_creation.2) ∧
  url_unique BadgeClassRow.url (badgeclasses sample_second_creation.2) ∧
  referential_integrity sample_second_creation.2 ∧
  all_instance_urls_blank sample_second_creation.2 ∧
  issuers_follow_badgeclasses sample_second_creation.2.
Proof.
  apply reachable_invariants.
  apply (rtc_l _ _ sample_creation.2).
  - apply (step_badgeinstance sample_env sample_abi user_kwargs empty_world
             sample_creation.1).
    vm_compute. reflexivity.
  - apply rtc_once.
    apply (step_badgeinstance sample_env sample_abi no_kwargs
             sample_creation.2 sample_second_creation.1).
    vm_compute. reflexivity.
Defined.

(** ** Rows that share a URL *)

Lemma objects_get_Multiple {R} (url_of : R → string)
    (tbl : gmap positive R) u k1 k2 r1 r2 :
  tbl !! k1 = Some r1 → tbl !! k2 = Some r2 → k1 ≠ k2 →
  url_of r1 = u → url_of r2 = u →
  objects_get url_of tbl u = Multiple.
Proof.
  intros H1 H2 Hne Hu1 Hu2. unfold objects_get.
  assert (Hin : ∀ k r, tbl !! k = Some r → url_of r = u →
            (k, r) ∈ map_to_list (filter (λ kr, url_of kr.2 = u) tbl)).
  { intros k r Hk Hu. by apply elem_of_map_to_list, map_lookup_filter_Some. }
  pose proof (Hin _ _ H1 Hu1) as Hin1. pose proof (Hin _ _ H2 Hu2) as Hin2.
  destruct (map_to_list _) as [|[k r] [|? ?]]; [|  |done].
  - by apply elem_of_nil in Hin1.
  - apply list_elem_of_singleton in Hin1, Hin2. congruence.
Qed.

(** X4: the [url] column is not unique, and [objects.get] refuses an
    ambiguous match: when two rows are stored under the payload's URL, each
    method raises [MultipleObjectsReturned] on a valid payload and leaves
    the store as it was. *)
Theorem duplicate_url_raises env abi kwargs w :
  is_valid abi = true →
  (∀ u k1 k2 r1 r2,
     issuer_url abi = Some u →
     issuers w !! k1 = Some r1 → issuers w !! k2 = Some r2 → k1 ≠ k2 →
     IssuerRow.url r1 = u → IssuerRow.url r2 = u →
     Issuer.from_analyzed_instance abi kwargs w =
       (Raise MultipleObjectsReturned, w)) ∧
  (∀ u k1 k2 r1 r2,
     badge_url abi = Some u →
     badgeclasses w !! k1 = Some r1 → badgeclasses w !! k2 = Some r2 →
     k1 ≠ k2 →
     BadgeClassRow.url r1 = u → BadgeClassRow.url r2 = u →
     BadgeClass.from_analyzed_instance abi kwargs w =
       (Raise MultipleObjectsReturned, w)) ∧
  (∀ k1 k2 r1 r2,
     badgeinstances w !! k1 = Some r1 → badgeinstances w !! k2 = Some r2 →
     k1 ≠ k2 →
     BadgeInstanceRow.url r1 = instance_url abi →
     BadgeInstanceRow.url r2 = instance_url abi →
     BadgeInstance.from_analyzed_instance env abi kwargs w =
       (Raise MultipleObjectsReturned, w)).
Proof.
  intros Hv. split_and!.
  - intros u k1 k2 r1 r2 Hu H1 H2 Hne Hu1 Hu2.
    unfold Issuer.from_analyzed_instance. rewrite Hv, Hu. run.
    by rewrite (objects_get_Multiple _ _ _ _ _ _ _ H1 H2 Hne Hu1 Hu2).
  - intros u k1 k2 r1 r2 Hu H1 H2 Hne Hu1 Hu2.
    unfold BadgeClass.from_analyzed_instance. rewrite Hv, Hu. run.
    by rewrite (objects_get_Multiple _ _ _ _ _ _ _ H1 H2 Hne Hu1 Hu2).
  - intros k1 k2 r1 r2 H1 H2 Hne Hu1 Hu2.
    unfold BadgeInstance.from_analyzed_instance. rewrite Hv. run.
    by rewrite (objects_get_Multiple _ _ _ _ _ _ _ H1 H2 Hne Hu1 Hu2).
Qed.

Lemma duplicate_url_raises_witness :
  Issuer.from_analyzed_instance sample_abi no_kwargs duplicate_world =
    (Raise MultipleObjectsReturned, duplicate_world).
Proof.
  destruct (duplicate_url_raises sample_env sample_abi no_kwargs
              duplicate_world eq_refl) as [Hissuer _].
  apply (Hissuer "http://issuer.example/1" 1%positive 2%positive
           sample_issuer_row sample_issuer_row);
    [reflexivity | vm_compute; reflexivity | vm_compute; reflexivity
    | discriminate | reflexivity | reflexivity].
Defined.

(** ** Failed calls *)



(** ** A badge class without an issuer *)

(** X10: [BadgeClass.issuer] is declared [null=False].  When a valid payload
    has a badge class that is not stored yet and no issuer
    ([Issuer.from_analyzed_instance] returns None), the assignment of None
    is refused: the call raises and no BadgeClass row is written. *)
Theorem badgeclass_needs_issuer abi kwargs w u c dd bd :
  is_valid abi = true →
  badge_url abi = Some u →
  objects_get BadgeClassRow.url (badgeclasses w) u = NotFound →
  badge abi = Some c →
  data abi = JDict dd → dd !! "badge" = Some (JDict bd) →
  issuer_url abi = None →
  BadgeClass.from_analyzed_instance abi kwargs w = (Raise ValueError, w).
Proof.
  intros Hv Hu Hget Hc Hdata Hbadge Hiu.
  unfold BadgeClass.from_analyzed_instance, Issuer.from_analyzed_instance.
  rewrite Hv, Hu, Hiu. run. rewrite Hget, Hc, Hdata. run.
  by rewrite Hbadge.
Qed.

Lemma badgeclass_needs_issuer_witness :
  BadgeClass.from_analyzed_instance issuerless_abi no_kwargs empty_world =
    (Raise ValueError, empty_world).
Proof.
  apply (badgeclass_needs_issuer issuerless_abi no_kwargs empty_world
           "http://issuer.example/badge/2"
           {| version := Some "1.0"; version_errors := JNull |}
           sample_data sample_badge_json); reflexivity.
Defined.

(** ** A BadgeInstance without a badge class *)



(** ** The image of a new BadgeInstance *)

(** X12: after a creation the JSON document of the returned row holds under
    ['image'] the value of [image_url()] for that row, the row is stored
    as returned, and the payload's [data] is that same document (the row
    was built on [abi.data] itself, so the caller's payload is changed). *)
Theorem created_instance_image_url env abi kwargs w pk obj abi' w' :
  is_valid abi = true →
  objects_get BadgeInstanceRow.url (badgeinstances w) (instance_url abi) =
    NotFound →
  BadgeInstance.from_analyzed_instance env abi kwargs w =
    (Ok (pk, obj, abi'), w') →
  ∃ d,
    BadgeInstanceRow.json obj = JDict d ∧
    d !! "image" = Some (JStr (BadgeInstance.image_url (settings env) obj)) ∧
    data abi' = JDict d ∧
    badgeinstances w' !! pk = Some obj.
Proof.
  intros Hv Hget H.
  destruct (BadgeInstance_created _ _ _ _ _ _ _ _ Hv Hget H)
    as (bopt & w1 & row1 & d1 & url0 & tr & _ & -> & Hjson & Himage & _ & _ & _
        & _ & _ & _ & _ & _ & _ & Hbi & Hdata & Hobj).
  rewrite Hbi, lookup_insert_eq, Hdata.
  destruct Hobj as [(Heq & -> & _)|(_ & -> & _)].
  - exists d1. by rewrite Heq.
  - eexists. split; [done|]. split; [|done].
    rewrite lookup_insert_eq. done.
Qed.

Lemma created_instance_image_url_witness :
  ∃ d,
    BadgeInstanceRow.json sample_created.1.2 = JDict d ∧
    d !! "image" =
      Some (JStr (BadgeInstance.image_url (settings sample_env)
                    sample_created.1.2)) ∧
    data sample_created.2 = JDict d ∧
    badgeinstances sample_creation.2 !! sample_created.1.1 =
      Some sample_created.1.2.
Proof.
  apply (created_instance_image_url sample_env sample_abi user_kwargs
           empty_world _ _ sample_created.2 sample_creation.2);
    [reflexivity | vm_compute; reflexivity | vm_compute; reflexivity].
Defined.

Lemma BadgeInstance_created_image env abi kwargs w pk obj abi' w' :
  is_valid abi = true →
  objects_get BadgeInstanceRow.url (badgeinstances w) (instance_url abi) =
    NotFound →
  BadgeInstance.from_analyzed_instance env abi kwargs w =
    (Ok (pk, obj, abi'), w') →
  ∃ bopt w1 saves,
    BadgeClass.from_analyzed_instance abi kwargs
      (recipient_looked_up (recipient_id abi) w) = (Ok bopt, w1) ∧
    name (BadgeInstanceRow.image obj) =
      storage_save env
        (("earned_badge_" +:+ uuid4 env (drawn w)) +:+
         (splitext (name (chosen_image env abi kwargs))).2) ∧
    drawn w' = S (drawn w) ∧
    trace w' =
      (trace w1 ++
       match kw_image kwargs with
       | Some _ => []
       | None => [EvBakedImage]
       end ++ [EvUuid4] ++ saves)%list ∧
    Forall (λ e, is_instance_write e = true) saves.
Proof.
  intros Hv Hget. unfold BadgeInstance.from_analyzed_instance.
  rewrite Hv. cbn [negb]. intros H.
  bind_ok H w0 w0' Hw0. injection Hw0 as <- <-. rewrite Hget in H.
  bind_ok H u0 wl Hl. injection Hl as _ <-.
  fold (recipient_looked_up (recipient_id abi) w) in H.
  bind_ok H bopt w1 Hbc.
  apply BadgeClass_frame in Hbc as Hframe.
  destruct Hframe as (_ & Hd & _ & _ & _). simpl in Hd.
  bind_ok H image w2 Himg.
  assert (Hw2 : image = chosen_image env abi kwargs ∧
                badgeinstances w2 = badgeinstances w1 ∧
                drawn w2 = drawn w1 ∧
                trace w2 =
                  (trace w1 ++
                   match kw_image kwargs with
                   | Some _ => []
                   | None => [EvBakedImage]
                   end)%list).
  { unfold chosen_image.
    destruct (kw_image kwargs); run in Himg; simplify_eq; simpl;
      by rewrite ?app_nil_r. }
  clear Himg. destruct Hw2 as (-> & Hb2 & Hd2 & Ht2).
  destruct (splitext (name (chosen_image env abi kwargs)))
    as [img_name img_ext] eqn:Hsplit.
  bind_ok H uuid w3 Hu. unfold draw_uuid4 in Hu. injection Hu as <- <-.
  bind_ok H json w4 Hj. simpl in Hj.
  destruct (data abi) as [| | | | |d] eqn:Hdata; try done.
  injection Hj as <- <-.
  set (url0 := BadgeInstance.image_url (settings env) _) in H.
  clearbody url0.
  bind_ok H new w5 Hn.
  assert (Hnew :
            BadgeInstanceRow.json new = JDict (<["image" := JStr url0]> d) ∧
            name (BadgeInstanceRow.image new) =
              ("earned_badge_" +:+ uuid4 env (drawn w2)) +:+ img_ext ∧
            badgeinstances w5 = badgeinstances w2 ∧
            drawn w5 = S (drawn w2) ∧
            trace w5 = (trace w2 ++ [EvUuid4])%list).
  { destruct bopt as [[b bc]|]; simpl in Hn.
    - bind_ok Hn ipk w5a Hiss. unfold BadgeInstance.badgeclass_issuer in Hiss.
      run in Hiss. destruct (issuers w2 !! _); simplify_eq.
      run in Hn. simplify_eq. simpl. done.
    - run in Hn. simplify_eq. simpl. done. }
  clear Hn. destruct Hnew as (Hjson & Hname & Hb5 & Hd5 & Ht5).
  bind_ok H saved w6 Hs. destruct saved as [pk' row1].
  unfold BadgeInstance.save_new in Hs.
  bind_ok Hs w5' w5'' Hg. injection Hg as <- <-.
  run in Hs. injection Hs as <- <- <-.
  bind_ok H differs w7 Hdf. simpl in Hdf. rewrite Hjson in Hdf.
  run in Hdf. rewrite lookup_insert_eq in Hdf. injection Hdf as <- <-.
  set (row1 := BadgeInstanceRow.with_image _ new) in *.
  destruct (String.eqb _ url0) eqn:Hne; simpl in H.
  - run in H. injection H as <- <- <- <-.
    exists bopt, w1. eexists [_]. simpl.
    rewrite Hname, Hd5, Hd2, Hd, Ht5, Ht2, <-!app_assoc. simpl.
    split_and!; try done. by repeat constructor.
  - bind_ok H json' w8 Hj'. simpl in Hj'. rewrite Hjson in Hj'.
    run in Hj'. injection Hj' as <- <-.
    bind_ok H u1 w9 Hup. unfold BadgeInstance.save_update_fields in Hup.
    bind_ok Hup w8' w8'' Hg. injection Hg as <- <-.
    simpl in Hup. rewrite lookup_insert_eq in Hup. run in Hup.
    injection Hup as _ <-. run in H. injection H as <- <- <- <-.
    exists bopt, w1. eexists [_; _]. simpl.
    rewrite Hname, Hd5, Hd2, Hd, Ht5, Ht2, <-!app_assoc. simpl.
    split_and!; try done. by repeat constructor.
Qed.

(** X13: the image of a new BadgeInstance is the image passed in the
    options when there is one and the baked image otherwise, and
    [baked_image_from_abi] is called only in the second case; the file is
    stored under the name the storage backend returns for
    ['earned_badge_' + uuid + ext], where [ext] is the extension of the
    original name, and one identifier is drawn. *)
Theorem created_instance_image_name env abi kwargs w pk obj abi' w' :
  is_valid abi = true →
  objects_get BadgeInstanceRow.url (badgeinstances w) (instance_url abi) =
    NotFound →
  BadgeInstance.from_analyzed_instance env abi kwargs w =
    (Ok (pk, obj, abi'), w') →
  name (BadgeInstanceRow.image obj) =
    storage_save env
      (("earned_badge_" +:+ uuid4 env (drawn w)) +:+
       (splitext (name (chosen_image env abi kwargs))).2) ∧
  drawn w' = S (drawn w) ∧
  ∃ events,
    trace w' = (trace w ++ events)%list ∧
    (EvBakedImage ∈ events ↔ kw_image kwargs = None).
Proof.
  intros Hv Hget H.
  destruct (BadgeInstance_created_image _ _ _ _ _ _ _ _ Hv Hget H)
    as (bopt & w1 & saves & Hbc & Hname & Hd & Htr & Hsaves).
  apply BadgeClass_tables in Hbc as (_ & _ & _ & _ & tr1 & Htr1 & Hins).
  simpl in Htr1. split_and!; [done..|].
  eexists. split.
  { rewrite Htr, Htr1, <-!app_assoc. done. }
  assert (Hno1 : EvBakedImage ∉ tr1).
  { intros Hin. rewrite Forall_forall in Hins. by apply Hins in Hin. }
  assert (Hno2 : EvBakedImage ∉ saves).
  { intros Hin. rewrite Forall_forall in Hsaves. by apply Hsaves in Hin. }
  rewrite !elem_of_app, !elem_of_cons.
  destruct (kw_image kwargs) as [image|]; split; try done.
  - rewrite !elem_of_nil. intros [[?|?]|[?|[?|[[?|?]|?]]]]; done.
  - intros _. right. right. left. rewrite elem_of_cons. by left.
Qed.

Lemma created_instance_image_name_witness :
  name (BadgeInstanceRow.image sample_created.1.2) =
    "uploads/badges/earned_badge_0.png".
Proof.
  destruct (created_instance_image_name sample_env sample_abi user_kwargs
              empty_world sample_created.1.1 sample_created.1.2
              sample_created.2 sample_creation.2) as (Hname & _);
    [reflexivity | vm_compute; reflexivity | vm_compute; reflexivity |].
  exact Hname.
Defined.

(** ** Witnesses for repeated calls *)

Lemma Issuer_idempotent_witness :
  Issuer.from_analyzed_instance renamed_abi user_kwargs
    (issuer_inserted 1 sample_issuer_row empty_world) =
  (Ok (Some (1%positive, sample_issuer_row)),
   issuer_inserted 1 sample_issuer_row empty_world).
Proof.
  apply (Issuer_idempotent sample_abi no_kwargs renamed_abi user_kwargs
           empty_world);
    [vm_compute; reflexivity | reflexivity | reflexivity].
Defined.

Lemma BadgeClass_idempotent_witness :
  BadgeClass.from_analyzed_instance renamed_abi user_kwargs
    sample_badgeclass_creation.2 =
  (Ok (Some (1%positive, sample_badgeclass_row)),
   sample_badgeclass_creation.2).
Proof.
  apply (BadgeClass_idempotent sample_abi no_kwargs renamed_abi user_kwargs
           empty_world);
    [vm_compute; reflexivity | reflexivity | reflexivity].
Defined.

Lemma BadgeInstance_not_idempotent_witness :
  sample_created.1.1 ≠ sample_second_created.1.1 ∧
  badgeinstances empty_world !! sample_created.1.1 = None ∧
  badgeinstances empty_world !! sample_second_created.1.1 = None ∧
  badgeinstances sample_second_creation.2 !! sample_created.1.1 =
    Some sample_created.1.2 ∧
  badgeinstances sample_second_creation.2 !! sample_second_created.1.1 =
    Some sample_second_created.1.2.
Proof.
  apply (BadgeInstance_not_idempotent sample_env sample_abi user_kwargs
           sample_abi no_kwargs empty_world _ _ sample_created.2
           sample_creation.2 _ _ sample_second_created.2).
  - intros k r Hk. vm_compute in Hk. discriminate Hk.
  - discriminate.
  - reflexivity.
  - vm_compute. reflexivity.
  - vm_compute. reflexivity.
Defined.

(** ** Witnesses for the conditions of creation *)

Lemma Issuer_creation_conditions_witness :
  is_valid sample_abi = true ∧
  ∃ c dd bd d,
    issuer_url sample_abi = Some (IssuerRow.url sample_issuer_row) ∧
    objects_get IssuerRow.url (issuers empty_world)
      (IssuerRow.url sample_issuer_row) = NotFound ∧
    issuer sample_abi = Some c ∧ data sample_abi = JDict dd ∧
    dd !! "badge" = Some (JDict bd) ∧ bd !! "issuer" = Some (JDict d).
Proof.
  apply (Issuer_creation_conditions sample_abi no_kwargs empty_world
           1%positive sample_issuer_row
           (issuer_inserted 1 sample_issuer_row empty_world));
    [vm_compute; reflexivity | reflexivity].
Defined.

Lemma BadgeClass_creation_conditions_witness :
  is_valid sample_abi = true ∧
  ∃ c dd bd issuer_row w1,
    badge_url sample_abi = Some (BadgeClassRow.url sample_badgeclass_row) ∧
    objects_get BadgeClassRow.url (badgeclasses empty_world)
      (BadgeClassRow.url sample_badgeclass_row) = NotFound ∧
    badge sample_abi = Some c ∧ data sample_abi = JDict dd ∧
    dd !! "badge" = Some (JDict bd) ∧
    Issuer.from_analyzed_instance sample_abi no_kwargs empty_world =
      (Ok (Some (BadgeClassRow.issuer sample_badgeclass_row, issuer_row)),
       w1).
Proof.
  apply (BadgeClass_creation_conditions sample_abi no_kwargs empty_world
           1%positive sample_badgeclass_row sample_badgeclass_creation.2);
    [vm_compute; reflexivity | reflexivity].
Defined.
